(** * A shallow embedding of the geometry kernel of ai-3d-generator

    Sources embedded here:
    - [src/core/mesh_processing/mesh_utils.py]  (class [MeshProcessor])
    - [src/core/text_to_3d/base_model.py]       (classes [BaseText3DModel]
      and [DemoText3DModel])

    Python exceptions are values of an error monad, numpy arrays of shape
    (N,3) are read as lists of rows, python dicts are finite maps, and the
    floating-point arithmetic of numpy is an interface ([Floating]) with two
    instances: IEEE-754 binary64 (the kernel's primitive floats, on which the
    examples are evaluated bit for bit) and the real numbers. *)

From Stdlib Require Import ZArith List Bool String Ascii Lia.
From Stdlib Require Import Reals Lra.
From Stdlib Require PrimFloat SpecFloat FloatOps Uint63.
From stdpp Require Import gmap pretty.
Import ListNotations.

Local Open Scope string_scope.
Local Open Scope list_scope.
Local Open Scope Z_scope.

(** ** Python exceptions as an error monad *)

Inductive exn_kind : Type :=
| IndexError
| KeyError
| ValueError
| OtherError.

(** An exception: its class and the text [str(e)] formats into messages. *)
Record exn : Type := mk_exn { exn_class : exn_kind; exn_msg : string }.

Inductive result (A : Type) : Type :=
| Ok (a : A)
| Raise (e : exn).
Arguments Ok {A} a.
Arguments Raise {A} e.

#[export] Instance result_ret : MRet result := fun _ a => Ok a.

#[export] Instance result_bind : MBind result := fun _ _ k r =>
  match r with
  | Ok a => k a
  | Raise e => Raise e
  end.

(** ** The floating-point interface

    Every operation numpy applies to a coordinate.  [of_Z] is the conversion
    of a python int ([float(i)], or an int stored into a float array); a
    decimal literal such as [1e-10] is [lit 1 (10^10)]: both integers are
    exact in binary64 and the division is correctly rounded, so the quotient
    is the literal's value. *)

Class Floating (F : Type) : Type := {
  of_Z : Z -> F;
  fadd : F -> F -> F;
  fsub : F -> F -> F;
  fmul : F -> F -> F;
  fdiv : F -> F -> F;
  fneg : F -> F;
  fabs : F -> F;
  fsqrt : F -> F;
  fminimum : F -> F -> F;      (* np.minimum *)
  fmaximum : F -> F -> F;      (* np.maximum *)
  fleb : F -> F -> bool;       (* <= *)
  fltb : F -> F -> bool;       (* <  *)
  feqb : F -> F -> bool;       (* == *)
  isfinite : F -> bool;        (* np.isfinite *)
  f32 : F -> F                 (* the cast of dtype=np.float32 *)
}.

(** [np.pi], [np.cos] and [np.sin]: the platform's libm. *)
Class Libm (F : Type) : Type := {
  np_pi : F;
  np_cos : F -> F;
  np_sin : F -> F
}.

Definition lit {F : Type} `{Floating F} (n d : Z) : F := fdiv (of_Z n) (of_Z d).

(** *** Instance: IEEE-754 binary64 *)

Module Binary64.

(** Exact for the integers the kernel converts (all below 2^53). *)
Definition of_Z (z : Z) : PrimFloat.float :=
  if z <? 0 then PrimFloat.opp (PrimFloat.of_uint63 (Uint63.of_Z (- z)))
  else PrimFloat.of_uint63 (Uint63.of_Z z).

Definition is_nan (x : PrimFloat.float) : bool := negb (PrimFloat.eqb x x).

(** [np.minimum] and [np.maximum] propagate NaN. *)
Definition minimum (a b : PrimFloat.float) : PrimFloat.float :=
  if is_nan a then a else if is_nan b then b
  else if PrimFloat.ltb b a then b else a.

Definition maximum (a b : PrimFloat.float) : PrimFloat.float :=
  if is_nan a then a else if is_nan b then b
  else if PrimFloat.ltb a b then b else a.

Definition isfinite (x : PrimFloat.float) : bool :=
  negb (is_nan x) && negb (PrimFloat.eqb (PrimFloat.abs x) PrimFloat.infinity).

(** Rounding to binary32 (24 bits of precision, emax 128), to nearest even;
    every binary32 value is a binary64 value. *)
Definition to_f32 (x : PrimFloat.float) : PrimFloat.float :=
  match FloatOps.Prim2SF x with
  | SpecFloat.S754_finite s m e =>
      FloatOps.SF2Prim (SpecFloat.binary_normalize 24 128 (SpecFloat.cond_Zopp s (Zpos m)) e s)
  | _ => x
  end.

End Binary64.

#[export] Instance binary64 : Floating PrimFloat.float := {|
  of_Z := Binary64.of_Z;
  fadd := PrimFloat.add;
  fsub := PrimFloat.sub;
  fmul := PrimFloat.mul;
  fdiv := PrimFloat.div;
  fneg := PrimFloat.opp;
  fabs := PrimFloat.abs;
  fsqrt := PrimFloat.sqrt;
  fminimum := Binary64.minimum;
  fmaximum := Binary64.maximum;
  fleb := PrimFloat.leb;
  fltb := PrimFloat.ltb;
  feqb := PrimFloat.eqb;
  isfinite := Binary64.isfinite;
  f32 := Binary64.to_f32
|}.

(** *** Instance: the real numbers (arithmetic without rounding) *)

Module Exact.

Definition leb (x y : R) : bool := if Rle_dec x y then true else false.
Definition ltb (x y : R) : bool := if Rlt_dec x y then true else false.
Definition eqb (x y : R) : bool := if Req_dec_T x y then true else false.

End Exact.

#[export] Instance exact : Floating R := {|
  of_Z := IZR;
  fadd := Rplus;
  fsub := Rminus;
  fmul := Rmult;
  fdiv := Rdiv;
  fneg := Ropp;
  fabs := Rabs;
  fsqrt := sqrt;
  fminimum := Rmin;
  fmaximum := Rmax;
  fleb := Exact.leb;
  fltb := Exact.ltb;
  feqb := Exact.eqb;
  isfinite := fun _ => true;
  f32 := fun x => x
|}.

#[export] Instance exact_libm : Libm R := {|
  np_pi := PI;
  np_cos := cos;
  np_sin := sin
|}.

(** ** numpy arrays

    An [ndarray] is its shape and its elements in row-major order.  The
    functions of the geometry kernel work on arrays of shape (N,3), which
    [as_rows3] views as the list of their rows; [np_array] is the array numpy
    builds from a list of three-element rows ([np.array([])] has shape (0,)). *)

Record ndarray (A : Type) : Type := mk_ndarray { shape : list nat; data : list A }.
Arguments mk_ndarray {A} shape data.
Arguments shape {A} n.
Arguments data {A} n.

(** A row of three elements; a vertex is a row of coordinates and a face a
    row of indices into the vertex array. *)
Abbreviation triple A := (A * A * A)%type (only parsing).
Abbreviation vec3 F := (F * F * F)%type (only parsing).
Abbreviation face := (Z * Z * Z)%type (only parsing).

Definition ndim {A : Type} (a : ndarray A) : nat := length (shape a).

(** [len(a)]: the first dimension (the arrays read here have rank 2). *)
Definition len {A : Type} (a : ndarray A) : nat := hd 0%nat (shape a).

Fixpoint rows3 {A : Type} (d : list A) : list (triple A) :=
  match d with
  | a :: b :: c :: rest => (a, b, c) :: rows3 rest
  | _ => []
  end.

Definition as_rows3 {A : Type} (a : ndarray A) : option (list (triple A)) :=
  match shape a with
  | [_; 3%nat] => Some (rows3 (data a))
  | _ => None
  end.

Definition flatten3 {A : Type} (rows : list (triple A)) : list A :=
  flat_map (fun '(a, b, c) => [a; b; c]) rows.

Definition np_array {A : Type} (rows : list (triple A)) : ndarray A :=
  match rows with
  | [] => mk_ndarray [0%nat] []
  | _ => mk_ndarray [length rows; 3%nat] (flatten3 rows)
  end.

(** [a[i]] along the first axis: a negative index counts from the end, and
    an index outside [-n, n) raises IndexError. *)
Definition index_error : exn := mk_exn IndexError "index is out of bounds for axis 0".

Definition np_index {A : Type} (a : list A) (i : Z) : result A :=
  let n := Z.of_nat (length a) in
  if (i <? - n) || (n <=? i) then Raise index_error
  else match a !! Z.to_nat (if i <? 0 then i + n else i) with
       | Some x => Ok x
       | None => Raise index_error
       end.

(** [v0, v1, v2 = vertices[face[:3]]]: the three indexed rows. *)
Definition take_rows {A : Type} (vertices : list A) (f : face) : result (triple A) :=
  let '(i0, i1, i2) := f in
  v0 ← np_index vertices i0;
  v1 ← np_index vertices i1;
  v2 ← np_index vertices i2;
  Ok (v0, v1, v2).

(** A [for] loop whose body may raise: the exception leaves the loop. *)
Fixpoint for_each {A S : Type} (body : S -> A -> result S) (l : list A) (s : S)
  : result S :=
  match l with
  | [] => Ok s
  | a :: rest => s' ← body s a; for_each body rest s'
  end.

Section VectorOps.
Context {F : Type} `{Floating F}.

(** Elementwise [a - b], [a + b], [a / c] on rows. *)
Definition vsub (a b : vec3 F) : vec3 F :=
  let '(a0, a1, a2) := a in let '(b0, b1, b2) := b in
  (fsub a0 b0, fsub a1 b1, fsub a2 b2).

Definition vadd (a b : vec3 F) : vec3 F :=
  let '(a0, a1, a2) := a in let '(b0, b1, b2) := b in
  (fadd a0 b0, fadd a1 b1, fadd a2 b2).

Definition vdiv (a : vec3 F) (c : F) : vec3 F :=
  let '(a0, a1, a2) := a in (fdiv a0 c, fdiv a1 c, fdiv a2 c).

Definition vminimum (a b : vec3 F) : vec3 F :=
  let '(a0, a1, a2) := a in let '(b0, b1, b2) := b in
  (fminimum a0 b0, fminimum a1 b1, fminimum a2 b2).

Definition vmaximum (a b : vec3 F) : vec3 F :=
  let '(a0, a1, a2) := a in let '(b0, b1, b2) := b in
  (fmaximum a0 b0, fmaximum a1 b1, fmaximum a2 b2).

(** [np.cross], [np.dot] and [np.linalg.norm] on three-vectors. *)
Definition np_cross (a b : vec3 F) : vec3 F :=
  let '(a0, a1, a2) := a in let '(b0, b1, b2) := b in
  (fsub (fmul a1 b2) (fmul a2 b1),
   fsub (fmul a2 b0) (fmul a0 b2),
   fsub (fmul a0 b1) (fmul a1 b0)).

Definition np_dot (a b : vec3 F) : F :=
  let '(a0, a1, a2) := a in let '(b0, b1, b2) := b in
  fadd (fadd (fmul a0 b0) (fmul a1 b1)) (fmul a2 b2).

Definition np_linalg_norm (a : vec3 F) : F := fsqrt (np_dot a a).

(** [np.min(a, axis=0)] and [np.max(a, axis=0)] of a non-empty (N,3) array:
    the reduction of [np.minimum] / [np.maximum] over the rows. *)
Definition np_min_axis0 (first : vec3 F) (rest : list (vec3 F)) : vec3 F :=
  fold_left vminimum rest first.

Definition np_max_axis0 (first : vec3 F) (rest : list (vec3 F)) : vec3 F :=
  fold_left vmaximum rest first.

(** [np.isclose(a, b, rtol, atol)] on one coordinate, as numpy computes it:
    [(abs(a - b) <= atol + rtol * abs(b)) & isfinite(b) | (a == b)]; and
    [np.allclose] on a row.  [rtol] keeps its default [1e-05] at the call in
    [mesh_utils.py]. *)
Definition rtol_default : F := lit 1 100000.

Definition np_isclose (a b rtol atol : F) : bool :=
  fleb (fabs (fsub a b)) (fadd atol (fmul rtol (fabs b))) && isfinite b
  || feqb a b.

Definition np_allclose (a b : vec3 F) (atol : F) : bool :=
  let '(a0, a1, a2) := a in let '(b0, b1, b2) := b in
  np_isclose a0 b0 rtol_default atol
  && np_isclose a1 b1 rtol_default atol
  && np_isclose a2 b2 rtol_default atol.

End VectorOps.

(** ** Values stored in the dictionaries the kernel returns *)

Inductive value (F : Type) : Type :=
| VInt (n : Z)
| VFloat (x : F)
| VBool (b : bool)
| VStr (s : string)
| VBox (d : gmap string (vec3 F)).
Arguments VInt {F} n.
Arguments VFloat {F} x.
Arguments VBool {F} b.
Arguments VStr {F} s.
Arguments VBox {F} d.

(** ** [MeshProcessor] (mesh_utils.py) *)

Module MeshProcessor.

Section WithFloats.
Context {F : Type} `{Floating F}.

(** The area term of one face: [np.linalg.norm(cross) / 2.0]. *)
Definition triangle_area (v0 v1 v2 : vec3 F) : F :=
  let edge1 := vsub v1 v0 in
  let edge2 := vsub v2 v0 in
  let cross := np_cross edge1 edge2 in
  fdiv (np_linalg_norm cross) (of_Z 2).

(** The volume term of one face: [np.dot(v0, np.cross(v1, v2)) / 6.0]. *)
Definition signed_volume (v0 v1 v2 : vec3 F) : F :=
  fdiv (np_dot v0 (np_cross v1 v2)) (of_Z 6).

(** [_calculate_bounding_box]: the empty case returns a dict of three keys. *)
Definition _calculate_bounding_box (vertices : list (vec3 F)) : gmap string (vec3 F) :=
  match vertices with
  | [] =>
      let zeros : vec3 F := (of_Z 0, of_Z 0, of_Z 0) in
      {[ "min" := zeros; "max" := zeros; "size" := zeros ]}
  | first :: rest =>
      let min_coords := np_min_axis0 first rest in
      let max_coords := np_max_axis0 first rest in
      let size := vsub max_coords min_coords in
      {[ "min" := min_coords;
         "max" := max_coords;
         "size" := size;
         "center" := vdiv (vadd min_coords max_coords) (of_Z 2) ]}
  end.

(** The body of the loop of [_estimate_surface_area]; the test
    [len(face) >= 3] holds for every row of an (M,3) array. *)
Definition area_step (vertices : list (vec3 F)) (total_area : F) (f : face)
  : result F :=
  '(v0, v1, v2) ← take_rows vertices f;
  Ok (fadd total_area (triangle_area v0 v1 v2)).

(** [_estimate_surface_area]: the [try] encloses the whole loop. *)
Definition _estimate_surface_area (vertices : list (vec3 F)) (faces : list face) : F :=
  match for_each (area_step vertices) faces (of_Z 0) with
  | Ok total_area => total_area
  | Raise _ => of_Z 0
  end.

Definition volume_step (vertices : list (vec3 F)) (volume : F) (f : face)
  : result F :=
  '(v0, v1, v2) ← take_rows vertices f;
  Ok (fadd volume (signed_volume v0 v1 v2)).

(** [_estimate_volume]: [abs] is applied to the accumulated total. *)
Definition _estimate_volume (vertices : list (vec3 F)) (faces : list face) : F :=
  match for_each (volume_step vertices) faces (of_Z 0) with
  | Ok volume => fabs volume
  | Raise _ => of_Z 0
  end.

(** [validate_mesh] returns a dict with these four keys. *)
Record validation : Type := mk_validation {
  is_valid : bool;
  errors : list string;
  warnings : list string;
  stats : gmap string (value F)
}.

(** [validation["errors"].append(msg); validation["is_valid"] = False] *)
Definition add_error (v : validation) (msg : string) : validation :=
  mk_validation false (errors v ++ [msg]) (warnings v) (stats v).

Definition add_warning (v : validation) (msg : string) : validation :=
  mk_validation (is_valid v) (errors v) (warnings v ++ [msg]) (stats v).

Definition set_stats (v : validation) (d : gmap string (value F)) : validation :=
  mk_validation (is_valid v) (errors v) (warnings v) d.

(** [validation["stats"][key] = x] *)
Definition set_stat (v : validation) (key : string) (x : value F) : validation :=
  set_stats v (<[key := x]> (stats v)).

(** What [trimesh.Trimesh(vertices=..., faces=...)] answers: the constructor
    and each of the two properties may raise. *)
Record trimesh_mesh : Type := mk_trimesh {
  tm_is_manifold : result bool;
  tm_is_watertight : result bool
}.

(** [repr] of a shape tuple, as the f-strings print it. *)
Definition repr_shape (sh : list nat) : string :=
  match sh with
  | [] => "()"
  | [n] => "(" +:+ pretty n +:+ ",)"
  | n :: rest =>
      "(" +:+ pretty n +:+ fold_right (fun m acc => ", " +:+ pretty m +:+ acc) ")" rest
  end.

Section Validate.
(** The external mesh-topology library. *)
Variable Trimesh : list (vec3 F) -> list face -> result trimesh_mesh.

(** The inner [try] of [validate_mesh]: the validation as the block left it,
    and the exception that ended it, if any. *)
Definition advanced_validation (v : validation) (vs : list (vec3 F)) (fs : list face)
  : validation * option exn :=
  match Trimesh vs fs with
  | Raise e => (v, Some e)
  | Ok tm =>
      match tm_is_manifold tm with
      | Raise e => (v, Some e)
      | Ok manifold =>
          let v := set_stat v "is_manifold" (VBool manifold) in
          match tm_is_watertight tm with
          | Raise e => (v, Some e)
          | Ok watertight =>
              let v := set_stat v "is_watertight" (VBool watertight) in
              let v := if negb manifold
                       then add_warning v "Mesh is not manifold" else v in
              let v := if negb watertight
                       then add_warning v "Mesh is not watertight" else v in
              (v, None)
          end
      end
  end.

(** The inner [try] with its handler: the exception becomes a warning. *)
Definition topology_block (v : validation) (vs : list (vec3 F)) (fs : list face)
  : validation :=
  match advanced_validation v vs fs with
  | (v', Some e) => add_warning v' ("Advanced validation failed: " +:+ exn_msg e)
  | (v', None) => v'
  end.

(** The six structural tests of [validate_mesh], in order. *)
Definition structural_checks (vertices : ndarray F) (faces : ndarray Z) : validation :=
  let validation := mk_validation true [] [] ∅ in
  let validation :=
    if negb (ndim vertices =? 2)%nat || negb (nth 1 (shape vertices) 0 =? 3)%nat
    then add_error validation ("Invalid vertex shape: " +:+ repr_shape (shape vertices))
    else validation in
  let validation :=
    if negb (ndim faces =? 2)%nat || negb (nth 1 (shape faces) 0 =? 3)%nat
    then add_error validation ("Invalid face shape: " +:+ repr_shape (shape faces))
    else validation in
  let validation :=
    if (len vertices =? 0)%nat
    then add_error validation "No vertices found" else validation in
  let validation :=
    if (len faces =? 0)%nat
    then add_error validation "No faces found" else validation in
  let max_vertex_index := Z.of_nat (len vertices) - 1 in
  let validation :=
    if existsb (fun i => max_vertex_index <? i) (data faces)
    then add_error validation "Face indices exceed vertex count" else validation in
  let validation :=
    if existsb (fun i => i <? 0) (data faces)
    then add_error validation "Negative face indices found" else validation in
  validation.

(** [validate_mesh] on arrays of shape (N,3) and (M,3).  For these no
    statement of the outer [try] raises, so its handler ("Validation error")
    is never entered; arrays of another rank or width, on which numpy
    broadcasts or raises in ways not embedded here, give [None]. *)
Definition validate_mesh (vertices : ndarray F) (faces : ndarray Z)
  : option validation :=
  vs ← as_rows3 vertices;
  fs ← as_rows3 faces;
  let validation := structural_checks vertices faces in
  let validation :=
    set_stats validation
      {[ "vertex_count" := VInt (Z.of_nat (len vertices));
         "face_count" := VInt (Z.of_nat (len faces));
         "bounding_box" := VBox (_calculate_bounding_box vs);
         "surface_area" := VFloat (_estimate_surface_area vs fs);
         "volume" := VFloat (_estimate_volume vs fs) ]} in
  Some (topology_block validation vs fs).

End Validate.

(** The first kept vertex [np.allclose] to [vertex], with its index: the
    inner loop of [_remove_duplicate_vertices] and its [break]. *)
Fixpoint find_close (vertex : vec3 F) (unique_vertices : list (vec3 F))
  (tolerance : F) (j : nat) : option nat :=
  match unique_vertices with
  | [] => None
  | unique_vertex :: rest =>
      if np_allclose vertex unique_vertex tolerance then Some j
      else find_close vertex rest tolerance (S j)
  end.

(** One round of the outer loop, on [(i, vertex)] of [enumerate(vertices)]. *)
Definition weld_step (tolerance : F)
  (st : list (vec3 F) * gmap Z Z) (iv : Z * vec3 F) : list (vec3 F) * gmap Z Z :=
  let '(unique_vertices, vertex_mapping) := st in
  let '(i, vertex) := iv in
  match find_close vertex unique_vertices tolerance 0 with
  | Some j => (unique_vertices, <[i := Z.of_nat j]> vertex_mapping)
  | None =>
      (unique_vertices ++ [vertex],
       <[i := Z.of_nat (length unique_vertices)]> vertex_mapping)
  end.

Definition enumerate {A : Type} (l : list A) : list (Z * A) :=
  zip (seqZ 0 (Z.of_nat (length l))) l.

(** [vertex_mapping[vertex_idx]]: a missing key raises KeyError. *)
Definition dict_get (vertex_mapping : gmap Z Z) (vertex_idx : Z) : result Z :=
  match vertex_mapping !! vertex_idx with
  | Some j => Ok j
  | None => Raise (mk_exn KeyError (pretty vertex_idx))
  end.

Definition remap_face (vertex_mapping : gmap Z Z) (f : face) : result face :=
  let '(i0, i1, i2) := f in
  j0 ← dict_get vertex_mapping i0;
  j1 ← dict_get vertex_mapping i1;
  j2 ← dict_get vertex_mapping i2;
  Ok (j0, j1, j2).

(** [_remove_duplicate_vertices]: any exception returns the arguments. *)
Definition _remove_duplicate_vertices (vertices : list (vec3 F)) (faces : list face)
  (tolerance : F) : list (vec3 F) * list face :=
  let '(unique_vertices, vertex_mapping) :=
    fold_left (weld_step tolerance) (enumerate vertices) ([], ∅) in
  match for_each (fun new_faces f =>
                    new_face ← remap_face vertex_mapping f;
                    Ok (new_faces ++ [new_face])) faces [] with
  | Ok new_faces => (unique_vertices, new_faces)
  | Raise _ => (vertices, faces)
  end.

(** The default [tolerance=1e-6]. *)
Definition default_tolerance : F := lit 1 1000000.

(** [len(set(face))] *)
Definition distinct_indices (f : face) : nat :=
  let '(i0, i1, i2) := f in size (list_to_set [i0; i1; i2] : gset Z).

(** The body of the loop of [_remove_degenerate_faces]: whether [face] is
    appended.  The variable the source calls [area] is the norm of the cross
    product. *)
Definition keeps_face (vertices : list (vec3 F)) (f : face) : bool :=
  if (distinct_indices f =? 3)%nat then
    match take_rows vertices f with
    | Ok (v0, v1, v2) =>
        let edge1 := vsub v1 v0 in
        let edge2 := vsub v2 v0 in
        let cross := np_cross edge1 edge2 in
        let area := np_linalg_norm cross in
        fltb (lit 1 (10 ^ 10)) area
    | Raise _ => false
    end
  else false.

(** [_remove_degenerate_faces] *)
Definition _remove_degenerate_faces (vertices : list (vec3 F)) (faces : list face)
  : list face :=
  let valid_faces := List.filter (keeps_face vertices) faces in
  match valid_faces with
  | [] => faces
  | _ => valid_faces
  end.

(** [repair_mesh] *)
Definition repair_mesh (vertices : list (vec3 F)) (faces : list face)
  : list (vec3 F) * list face :=
  let '(vertices, faces) := _remove_duplicate_vertices vertices faces default_tolerance in
  let faces := _remove_degenerate_faces vertices faces in
  (vertices, faces).

(** A row stored into an array of dtype float32 (the [vectors] of an STL
    mesh). *)
Definition f32_row (v : vec3 F) : vec3 F :=
  let '(x, y, z) := v in (f32 x, f32 y, f32 z).

(** [create_mesh_from_arrays] on arrays of shape (N,3) and (M,3), for which
    the two shape tests pass: the [vectors] of the STL mesh, one triangle per
    face.  [vertices[face[j]]] raises IndexError, which the handler logs and
    raises again. *)
Definition create_mesh_from_arrays (vertices : list (vec3 F)) (faces : list face)
  : result (list (triple (vec3 F))) :=
  for_each (fun vectors f =>
              '(v0, v1, v2) ← take_rows vertices f;
              Ok (vectors ++ [(f32_row v0, f32_row v1, f32_row v2)])) faces [].

(** [tuple(a) == tuple(b)]: the coordinates are compared in order. *)
Definition same_tuple (a b : vec3 F) : bool :=
  let '(a0, a1, a2) := a in let '(b0, b1, b2) := b in
  feqb a0 b0 && feqb a1 b1 && feqb a2 b2.

(** [vertex_map], a dict keyed by coordinate tuples, as the list of its
    items in insertion order; a lookup compares the stored key with the one
    asked for. *)
Fixpoint tuple_lookup (vertex_map : list (vec3 F * nat)) (vertex_tuple : vec3 F)
  : option nat :=
  match vertex_map with
  | [] => None
  | (key, index) :: rest =>
      if same_tuple key vertex_tuple then Some index
      else tuple_lookup rest vertex_tuple
  end.

(** The state of the loops of [_stl_to_trimesh]. *)
Record trimesh_builder : Type := mk_builder {
  tb_vertices : list (vec3 F);
  tb_vertex_map : list (vec3 F * nat);
  tb_vertex_index : nat
}.

(** One round of the inner loop, on one corner: the state after it and the
    index appended to [face]. *)
Definition add_corner (b : trimesh_builder) (vertex : vec3 F) : trimesh_builder * nat :=
  match tuple_lookup (tb_vertex_map b) vertex with
  | Some index => (b, index)
  | None =>
      (mk_builder (tb_vertices b ++ [vertex])
                  (tb_vertex_map b ++ [(vertex, tb_vertex_index b)])
                  (tb_vertex_index b + 1),
       tb_vertex_index b)
  end.

(** One round of the outer loop, on one triangle. *)
Definition add_triangle (st : trimesh_builder * list face) (triangle : triple (vec3 F))
  : trimesh_builder * list face :=
  let '(b, faces) := st in
  let '(v0, v1, v2) := triangle in
  let '(b, i0) := add_corner b v0 in
  let '(b, i1) := add_corner b v1 in
  let '(b, i2) := add_corner b v2 in
  (b, faces ++ [(Z.of_nat i0, Z.of_nat i1, Z.of_nat i2)]).

(** The loops of [_stl_to_trimesh]: the lists [vertices] and [faces] they
    leave. *)
Definition stl_vertices_faces (vectors : list (triple (vec3 F)))
  : list (vec3 F) * list face :=
  let '(b, faces) := fold_left add_triangle vectors (mk_builder [] [] 0, []) in
  (tb_vertices b, faces).

(** [_stl_to_trimesh] returns what the constructor [trimesh.Trimesh] makes
    of the two lists.  The constructor belongs to the external library: it
    is a parameter, and so is the type [T] of what it answers (an object,
    which need not hold the vertices and faces it was given, or an
    exception). *)
Definition _stl_to_trimesh {T : Type} (Trimesh : list (vec3 F) -> list face -> T)
  (vectors : list (triple (vec3 F))) : T :=
  let '(vertices, faces) := stl_vertices_faces vectors in
  Trimesh vertices faces.

End WithFloats.

End MeshProcessor.

(** ** Python strings

    A prompt is a [string] read as the python [str] with the same code points
    (U+0000 to U+00FF); [str.isspace] and [str.lower] are those of python on
    that range. *)

Module Str.

Definition isspace (c : ascii) : bool :=
  let n := nat_of_ascii c in
  ((9 <=? n) && (n <=? 13) || (28 <=? n) && (n <=? 32)
   || (n =? 133) || (n =? 160))%nat.

Definition lower_char (c : ascii) : ascii :=
  let n := nat_of_ascii c in
  if ((65 <=? n) && (n <=? 90)
      || (192 <=? n) && (n <=? 222) && negb (n =? 215))%nat
  then ascii_of_nat (n + 32) else c.

(** [s.lower()] *)
Fixpoint lower (s : string) : string :=
  match s with
  | EmptyString => EmptyString
  | String c rest => String (lower_char c) (lower rest)
  end.

Fixpoint lstrip (s : string) : string :=
  match s with
  | EmptyString => EmptyString
  | String c rest => if isspace c then lstrip rest else s
  end.

(** [s.rstrip()]: a character is dropped when it and all after it are
    whitespace. *)
Fixpoint rstrip (s : string) : string :=
  match s with
  | EmptyString => EmptyString
  | String c rest =>
      match rstrip rest with
      | EmptyString => if isspace c then EmptyString else String c EmptyString
      | rest' => String c rest'
      end
  end.

(** [s.strip()] *)
Definition strip (s : string) : string := rstrip (lstrip s).

(** [s.split()]: the maximal runs of non-whitespace; [word] is the run being
    read. *)
Fixpoint split_from (s : string) (word : string) : list string :=
  match s with
  | EmptyString => match word with EmptyString => [] | _ => [word] end
  | String c rest =>
      if isspace c
      then match word with
           | EmptyString => split_from rest EmptyString
           | _ => word :: split_from rest EmptyString
           end
      else split_from rest (word +:+ String c EmptyString)
  end.

Definition split (s : string) : list string := split_from s EmptyString.

(** [sep.join(words)] *)
Fixpoint join (sep : string) (words : list string) : string :=
  match words with
  | [] => EmptyString
  | [w] => w
  | w :: rest => w +:+ sep +:+ join sep rest
  end.

(** [word in s] *)
Fixpoint contains (word s : string) : bool :=
  String.prefix word s
  || match s with
     | EmptyString => false
     | String _ rest => contains word rest
     end.

End Str.

(** ** [BaseText3DModel] (base_model.py) *)

Module BaseText3DModel.

Definition banned_words : list string := ["explicit"; "inappropriate"; "nsfw"].

(** The prompt after the cleaning steps of [preprocess_prompt]. *)
Definition clean (prompt : string) : string :=
  let cleaned_prompt := Str.lower (Str.strip prompt) in
  Str.join " " (Str.split cleaned_prompt).

(** The [for word in banned_words] loop: the first banned word found raises. *)
Fixpoint content_filter (words : list string) (cleaned_prompt : string)
  : result unit :=
  match words with
  | [] => Ok tt
  | word :: rest =>
      if Str.contains word cleaned_prompt
      then Raise (mk_exn ValueError ("Inappropriate content detected: " +:+ word))
      else content_filter rest cleaned_prompt
  end.

(** [preprocess_prompt] *)
Definition preprocess_prompt (prompt : string) : result string :=
  let cleaned_prompt := clean prompt in
  _ ← content_filter banned_words cleaned_prompt;
  Ok cleaned_prompt.

Section WithFloats.
Context {F : Type} `{Floating F}.

(** What [postprocess_geometry] returns: a dict of three keys. *)
Record generated : Type := mk_generated {
  vertices : ndarray F;
  faces : ndarray Z;
  metadata : gmap string (value F)
}.

(** [_estimate_volume] of this class: [np.abs] is applied to the term of
    every face, inside the loop. *)
Definition volume_step (vertices : list (vec3 F)) (volume : F) (f : face)
  : result F :=
  '(v0, v1, v2) ← take_rows vertices f;
  Ok (fadd volume (fdiv (fabs (np_dot v0 (np_cross v1 v2))) (of_Z 6))).

Definition _estimate_volume (vertices : list (vec3 F)) (faces : list face) : F :=
  match for_each (volume_step vertices) faces (of_Z 0) with
  | Ok volume => volume
  | Raise _ => of_Z 0
  end.

(** [postprocess_geometry]; its handler logs and raises the exception again. *)
Definition postprocess_geometry (vertices : ndarray F) (faces : ndarray Z)
  : result generated :=
  if negb (ndim vertices =? 2)%nat || negb (nth 1 (shape vertices) 0 =? 3)%nat
  then Raise (mk_exn ValueError
                ("Invalid vertices shape: " +:+ MeshProcessor.repr_shape (shape vertices)))
  else if negb (ndim faces =? 2)%nat || negb (nth 1 (shape faces) 0 =? 3)%nat
  then Raise (mk_exn ValueError
                ("Invalid faces shape: " +:+ MeshProcessor.repr_shape (shape faces)))
  else
    if (len vertices =? 0)%nat || (len faces =? 0)%nat
    then Raise (mk_exn ValueError "Empty geometry generated")
    else
      match as_rows3 vertices, as_rows3 faces with
      | Some (first :: rest), Some fs =>
          let bbox_min := np_min_axis0 first rest in
          let bbox_max := np_max_axis0 first rest in
          let bbox_size := vsub bbox_max bbox_min in
          let metadata : gmap string (value F) :=
            {[ "vertex_count" := VInt (Z.of_nat (len vertices));
               "face_count" := VInt (Z.of_nat (len faces));
               "bounding_box" :=
                 VBox {[ "min" := bbox_min; "max" := bbox_max; "size" := bbox_size ]};
               "volume_estimate" := VFloat (_estimate_volume (first :: rest) fs) ]} in
          Ok (mk_generated vertices faces metadata)
      | _, _ =>
          Raise (mk_exn ValueError
                   "zero-size array to reduction operation minimum which has no identity")
      end.

End WithFloats.
Arguments generated F : clear implicits.

End BaseText3DModel.

(** ** [DemoText3DModel] (base_model.py) *)

Module DemoText3DModel.

(** [any(word in prompt for word in words)] *)
Definition any_in (words : list string) (prompt : string) : bool :=
  existsb (fun word => Str.contains word prompt) words.

Definition sphere_words : list string := ["sphere"; "ball"; "round"; "orb"].
Definition cylinder_words : list string := ["cylinder"; "tube"; "pipe"; "rod"].
Definition pyramid_words : list string := ["pyramid"; "triangle"; "cone"].
Definition small_words : list string := ["small"; "tiny"; "mini"].
Definition large_words : list string := ["large"; "big"; "huge"; "giant"].

(** [_extract_shape_type] *)
Definition _extract_shape_type (prompt : string) : string :=
  if any_in sphere_words prompt then "sphere"
  else if any_in cylinder_words prompt then "cylinder"
  else if any_in pyramid_words prompt then "pyramid"
  else "cube".

Section WithFloats.
Context {F : Type} `{Floating F} `{Libm F}.

(** [_extract_size] *)
Definition _extract_size (prompt : string) : F :=
  if any_in small_words prompt then lit 1 2
  else if any_in large_words prompt then of_Z 2
  else of_Z 1.

(** [np.array(rows, dtype=np.float32)] and [np.array(rows, dtype=np.uint32)];
    every index the generators write is a small natural number, which the
    second cast leaves as it is. *)
Definition float32_array (rows : list (vec3 F)) : ndarray F :=
  np_array (map (fun '(x, y, z) => (f32 x, f32 y, f32 z)) rows).

Definition uint32_array (rows : list face) : ndarray Z := np_array rows.

(** [_create_cube] *)
Definition _create_cube (size : F) : ndarray F * ndarray Z :=
  let s := fdiv size (of_Z 2) in
  let vertices := float32_array
    [ (fneg s, fneg s, fneg s); (s, fneg s, fneg s);
      (s, s, fneg s); (fneg s, s, fneg s);
      (fneg s, fneg s, s); (s, fneg s, s); (s, s, s); (fneg s, s, s) ] in
  let faces := uint32_array
    [ (0, 1, 2); (0, 2, 3);
      (4, 7, 6); (4, 6, 5);
      (0, 4, 5); (0, 5, 1);
      (2, 6, 7); (2, 7, 3);
      (0, 3, 7); (0, 7, 4);
      (1, 5, 6); (1, 6, 2) ] in
  (vertices, faces).

Definition lat_segments : Z := 16.
Definition lon_segments : Z := 32.

(** The vertex and the two faces written at [(i, j)] by [_create_sphere]. *)
Definition sphere_vertex (radius : F) (i j : Z) : vec3 F :=
  let lat := fmul np_pi (fadd (fneg (lit 1 2)) (fdiv (of_Z i) (of_Z lat_segments))) in
  let lon := fdiv (fmul (fmul (of_Z 2) np_pi) (of_Z j)) (of_Z lon_segments) in
  let x := fmul (fmul radius (np_cos lat)) (np_cos lon) in
  let y := fmul radius (np_sin lat) in
  let z := fmul (fmul radius (np_cos lat)) (np_sin lon) in
  (x, y, z).

Definition sphere_faces_at (i j : Z) : list face :=
  let first := i * (lon_segments + 1) + j in
  let second := first + lon_segments + 1 in
  [ (first, second, first + 1); (second, second + 1, first + 1) ].

(** [_create_sphere]; [range(n)] is [seqZ 0 n]. *)
Definition _create_sphere (size : F) : ndarray F * ndarray Z :=
  let radius := fdiv size (of_Z 2) in
  let vertices :=
    flat_map (fun i => map (sphere_vertex radius i) (seqZ 0 (lon_segments + 1)))
             (seqZ 0 (lat_segments + 1)) in
  let faces :=
    flat_map (fun i => flat_map (sphere_faces_at i) (seqZ 0 lon_segments))
             (seqZ 0 lat_segments) in
  (float32_array vertices, uint32_array faces).

Definition segments : Z := 16.

(** [_create_cylinder] *)
Definition _create_cylinder (size : F) : ndarray F * ndarray Z :=
  let radius := fdiv size (of_Z 2) in
  let height := size in
  let centers : list (vec3 F) :=
    [ (of_Z 0, fdiv (fneg height) (of_Z 2), of_Z 0);
      (of_Z 0, fdiv height (of_Z 2), of_Z 0) ] in
  let rings :=
    flat_map (fun i =>
      let angle := fdiv (fmul (fmul (of_Z 2) np_pi) (of_Z i)) (of_Z segments) in
      let x := fmul radius (np_cos angle) in
      let z := fmul radius (np_sin angle) in
      [ (x, fdiv (fneg height) (of_Z 2), z); (x, fdiv height (of_Z 2), z) ])
      (seqZ 0 segments) in
  let bottom_faces :=
    map (fun i => let next_i := (i + 1) mod segments in
                  (0, 2 + i * 2, 2 + next_i * 2)) (seqZ 0 segments) in
  let top_faces :=
    map (fun i => let next_i := (i + 1) mod segments in
                  (1, 3 + next_i * 2, 3 + i * 2)) (seqZ 0 segments) in
  let side_faces :=
    flat_map (fun i => let next_i := (i + 1) mod segments in
                       [ (2 + i * 2, 3 + i * 2, 2 + next_i * 2);
                         (3 + i * 2, 3 + next_i * 2, 2 + next_i * 2) ])
             (seqZ 0 segments) in
  (float32_array (centers ++ rings),
   uint32_array (bottom_faces ++ top_faces ++ side_faces)).

(** [_create_pyramid] *)
Definition _create_pyramid (size : F) : ndarray F * ndarray Z :=
  let s := fdiv size (of_Z 2) in
  let h := size in
  let vertices := float32_array
    [ (fneg s, fdiv (fneg h) (of_Z 2), fneg s);
      (s, fdiv (fneg h) (of_Z 2), fneg s);
      (s, fdiv (fneg h) (of_Z 2), s);
      (fneg s, fdiv (fneg h) (of_Z 2), s);
      (of_Z 0, fdiv h (of_Z 2), of_Z 0) ] in
  let faces := uint32_array
    [ (0, 1, 2); (0, 2, 3);
      (0, 4, 1); (1, 4, 2); (2, 4, 3); (3, 4, 0) ] in
  (vertices, faces).

(** The dispatch of [generate_3d] on the shape type. *)
Definition create (shape_type : string) (size : F) : ndarray F * ndarray Z :=
  if String.eqb shape_type "sphere" then _create_sphere size
  else if String.eqb shape_type "cylinder" then _create_cylinder size
  else if String.eqb shape_type "pyramid" then _create_pyramid size
  else _create_cube size.

(** [generate_3d]; its handler logs and raises the exception again. *)
Definition generate_3d (prompt : string) : result (BaseText3DModel.generated F) :=
  cleaned_prompt ← BaseText3DModel.preprocess_prompt prompt;
  let shape_type := _extract_shape_type cleaned_prompt in
  let size := _extract_size cleaned_prompt in
  let '(vertices, faces) := create shape_type size in
  result ← BaseText3DModel.postprocess_geometry vertices faces;
  let metadata := <["shape_type" := VStr shape_type]> (BaseText3DModel.metadata result) in
  let metadata := <["generation_method" := VStr "demo"]> metadata in
  Ok (BaseText3DModel.mk_generated
        (BaseText3DModel.vertices result) (BaseText3DModel.faces result) metadata).

End WithFloats.

End DemoText3DModel.

(** ** [ModelManager] (model_manager.py)

    The registry holds [DemoText3DModel] objects, the one concrete class of
    the repository; an object is the attributes [BaseText3DModel.__init__]
    sets ([model] stays [None]).  A registry gives, for each name, the state
    of the object registered under it: one object registered under two
    names is not represented, and the statements below speak of the entry
    of one name.  [generate_3d] is embedded as its callers use it, without
    keyword arguments; RuntimeError is [OtherError]. *)

Module ModelManager.

Record model_object : Type := mk_model {
  model_name : string;
  model_path : option string;
  is_loaded : bool;
  device : string
}.

(** [DemoText3DModel()] *)
Definition demo_model : model_object := mk_model "demo" None true "cpu".

(** [model.is_available()], [model.load_model()] (the object after the call
    and what the call returns) and [model.unload_model()]. *)
Definition is_available (m : model_object) : bool := true.

Definition load_model (m : model_object) : model_object * bool :=
  (mk_model (model_name m) (model_path m) true (device m), true).

Definition unload_model_object (m : model_object) : model_object :=
  mk_model (model_name m) (model_path m) false (device m).

(** The attribute [_models] of a manager. *)
Definition registry : Type := gmap string model_object.

(** [register_model] *)
Definition register_model (models : registry) (name : string) (model : model_object)
  : registry :=
  <[name := model]> models.

(** [ModelManager()]: the registry after [_load_default_models]. *)
Definition default_models : registry := register_model ∅ "demo" demo_model.

(** [get_model] *)
Definition get_model (models : registry) (name : string) : option model_object :=
  models !! name.

(** [unload_model]: a name that is not registered changes nothing. *)
Definition unload_model (models : registry) (name : string) : registry :=
  match models !! name with
  | Some model => <[name := unload_model_object model]> models
  | None => models
  end.

Section WithFloats.
Context {F : Type} `{Floating F} `{Libm F}.

(** [generate_3d(model_name, prompt)]: what the call returns or raises, and
    the registry after it (loading a model mutates the registered object,
    also when the generation then fails). *)
Definition generate_3d (models : registry) (model_name : string) (prompt : string)
  : result (BaseText3DModel.generated F) * registry :=
  match get_model models model_name with
  | None =>
      (Raise (mk_exn ValueError ("Model '" +:+ model_name +:+ "' not found")), models)
  | Some model =>
      if negb (is_available model)
      then (Raise (mk_exn OtherError ("Model '" +:+ model_name +:+ "' is not available")),
            models)
      else
        let '(models, loaded) :=
          if negb (is_loaded model)
          then let '(model, loaded) := load_model model in
               (<[model_name := model]> models, loaded)
          else (models, true) in
        if negb loaded
        then (Raise (mk_exn OtherError ("Failed to load model: " +:+ model_name)), models)
        else
          match DemoText3DModel.generate_3d prompt with
          | Raise e => (Raise e, models)
          | Ok result =>
              let metadata := BaseText3DModel.metadata result in
              let metadata := <["model_used" := VStr model_name]> metadata in
              let metadata := <["prompt" := VStr prompt]> metadata in
              let metadata := <["generation_params" := VBox ∅]> metadata in
              (Ok (BaseText3DModel.mk_generated
                     (BaseText3DModel.vertices result) (BaseText3DModel.faces result)
                     metadata),
               models)
          end
  end.

End WithFloats.

End ModelManager.

(** ** [PromptProcessor] (api/utils.py) *)

Module PromptProcessor.

Definition inappropriate_words : list string := ["explicit"; "inappropriate"].

(** The loop of [clean_prompt]: [word.lower() in cleaned.lower()]. *)
Fixpoint content_filter (words : list string) (cleaned : string) : result unit :=
  match words with
  | [] => Ok tt
  | word :: rest =>
      if Str.contains (Str.lower word) (Str.lower cleaned)
      then Raise (mk_exn ValueError ("Inappropriate content detected: " +:+ word))
      else content_filter rest cleaned
  end.

(** [clean_prompt] *)
Definition clean_prompt (prompt : string) : result string :=
  let cleaned := Str.join " " (Str.split prompt) in
  _ ← content_filter inappropriate_words cleaned;
  Ok cleaned.

End PromptProcessor.

(** ** Vocabulary of the statements *)

(** An index numpy accepts on an axis of length [n]. *)
Definition valid_index (n : nat) (i : Z) : Prop := - Z.of_nat n <= i < Z.of_nat n.

Definition face_in_range (n : nat) (f : face) : Prop :=
  let '(i0, i1, i2) := f in
  valid_index n i0 /\ valid_index n i1 /\ valid_index n i2.

(** An index of the canonical index space [0, n). *)
Definition canonical_index (n : nat) (i : Z) : Prop := 0 <= i < Z.of_nat n.

Definition face_canonical (n : nat) (f : face) : Prop :=
  let '(i0, i1, i2) := f in
  canonical_index n i0 /\ canonical_index n i1 /\ canonical_index n i2.

#[export] Instance canonical_index_dec n i : Decision (canonical_index n i).
Proof. unfold canonical_index. apply _. Defined.

#[export] Instance valid_index_dec n i : Decision (valid_index n i).
Proof. unfold valid_index. apply _. Defined.

#[export] Instance face_in_range_dec n f : Decision (face_in_range n f).
Proof. destruct f as [[i0 i1] i2]. unfold face_in_range. apply _. Defined.

(** A generated mesh with [N] vertices and [M] faces: arrays of shape (N,3)
    and (M,3), holding 3N coordinates and 3M indices, every index in
    [0, N). *)
Definition mesh_counts {F : Type} (mesh : ndarray F * ndarray Z) (N M : nat) : Prop :=
  shape (fst mesh) = [N; 3%nat]
  /\ length (data (fst mesh)) = (3 * N)%nat
  /\ shape (snd mesh) = [M; 3%nat]
  /\ length (data (snd mesh)) = (3 * M)%nat
  /\ Forall (canonical_index N) (data (snd mesh)).

(** The rows [vertices[face[:3]]] of every face, when no indexing fails. *)
Definition indexed_rows {A : Type} (a : list A) (faces : list face)
  : option (list (triple A)) :=
  mapM (fun f => match take_rows a f with Ok r => Some r | Raise _ => None end) faces.

Section Specifications.
Context {F : Type} `{Floating F}.

(** The surface-area estimate as the specification words it: a face whose
    indexing fails is skipped and the accumulation goes on. *)
Definition surface_area_skipping (vertices : list (vec3 F)) (faces : list face) : F :=
  fold_left (fun total f =>
               match take_rows vertices f with
               | Ok (v0, v1, v2) => fadd total (MeshProcessor.triangle_area v0 v1 v2)
               | Raise _ => total
               end) faces (of_Z 0).

(** The sum of the area terms of faces whose rows are [rows]. *)
Definition sum_areas (rows : list (triple (vec3 F))) : F :=
  fold_left (fun total '(v0, v1, v2) => fadd total (MeshProcessor.triangle_area v0 v1 v2))
            rows (of_Z 0).

(** The sum of the signed volume terms. *)
Definition sum_signed_volumes (rows : list (triple (vec3 F))) : F :=
  fold_left (fun total '(v0, v1, v2) => fadd total (MeshProcessor.signed_volume v0 v1 v2))
            rows (of_Z 0).

(** No index of the face is repeated. *)
Definition pairwise_distinct (f : face) : bool :=
  let '(i0, i1, i2) := f in
  negb (i0 =? i1) && negb (i0 =? i2) && negb (i1 =? i2).

(** The norm [|cross(v1 - v0, v2 - v0)|] of a face, twice its area. *)
Definition cross_norm (v0 v1 v2 : vec3 F) : F :=
  np_linalg_norm (np_cross (vsub v1 v0) (vsub v2 v0)).

(** A face [_remove_degenerate_faces] drops: a repeated index, rows that
    cannot be read, or a cross-product norm that does not exceed [1e-10]. *)
Definition degenerate (vertices : list (vec3 F)) (f : face) : bool :=
  negb (pairwise_distinct f)
  || match take_rows vertices f with
     | Ok (v0, v1, v2) => negb (fltb (lit 1 (10 ^ 10)) (cross_norm v0 v1 v2))
     | Raise _ => true
     end.

(** Welding, vertex by vertex: [welded tolerance vertices kept new_index]
    says that reading [vertices] in order keeps the list [kept] and sends the
    i-th vertex to position [new_index !! i] of it.  A vertex [np.allclose]
    to a kept one goes to the first such; any other is kept, at the end. *)
Inductive welded (tolerance : F)
  : list (vec3 F) -> list (vec3 F) -> list nat -> Prop :=
| welded_nil : welded tolerance [] [] []
| welded_merge vertices kept new_index vertex j u :
    welded tolerance vertices kept new_index ->
    kept !! j = Some u ->
    np_allclose vertex u tolerance = true ->
    (forall j' u', (j' < j)%nat -> kept !! j' = Some u' ->
                   np_allclose vertex u' tolerance = false) ->
    welded tolerance (vertices ++ [vertex]) kept (new_index ++ [j])
| welded_keep vertices kept new_index vertex :
    welded tolerance vertices kept new_index ->
    (forall u, u ∈ kept -> np_allclose vertex u tolerance = false) ->
    welded tolerance (vertices ++ [vertex]) (kept ++ [vertex])
           (new_index ++ [length kept]).

(** A face with every index replaced by its vertex's new index. *)
Definition remap (new_index : list nat) (f : face) : face :=
  let '(i0, i1, i2) := f in
  (Z.of_nat (new_index !!! Z.to_nat i0),
   Z.of_nat (new_index !!! Z.to_nat i1),
   Z.of_nat (new_index !!! Z.to_nat i2)).

(** No vertex of the list is [np.allclose] to one before it. *)
Definition sparse (tolerance : F) (kept : list (vec3 F)) : Prop :=
  forall i j u' u, (i < j)%nat -> kept !! i = Some u' -> kept !! j = Some u ->
    np_allclose u u' tolerance = false.

(** The state of [_remove_duplicate_vertices] after its first loop. *)
Definition weld_state (tolerance : F) (vertices : list (vec3 F))
  : list (vec3 F) * gmap Z Z :=
  fold_left (MeshProcessor.weld_step tolerance) (MeshProcessor.enumerate vertices) ([], ∅).

End Specifications.

Section Conversions.
Context {F : Type} `{Floating F}.

(** The vertex that index [i] names stands for the corner [v]: it is [v]
    itself, or a vertex stored earlier whose tuple compares equal to the
    tuple of [v]. *)
Definition stands_for (vertices : list (vec3 F)) (i : Z) (v : vec3 F) : Prop :=
  0 <= i
  /\ exists u, vertices !! Z.to_nat i = Some u
       /\ (u = v \/ MeshProcessor.same_tuple u v = true).

(** No vertex of the list compares equal, as a tuple, to a later one. *)
Definition distinct_tuples (vertices : list (vec3 F)) : Prop :=
  forall i j u u', (i < j)%nat -> vertices !! i = Some u -> vertices !! j = Some u' ->
    MeshProcessor.same_tuple u u' = false.

(** [_stl_to_trimesh] on [vectors] calls the constructor [trimesh.Trimesh]
    on the lists [vertices] and [faces]: whatever the constructor is, the
    function returns what it answers on these two lists. *)
Definition hands_to_trimesh (vectors : list (triple (vec3 F)))
  (vertices : list (vec3 F)) (faces : list face) : Prop :=
  forall (T : Type) (Trimesh : list (vec3 F) -> list face -> T),
    MeshProcessor._stl_to_trimesh Trimesh vectors = Trimesh vertices faces.

(** What the loops of [_stl_to_trimesh] keep: the counter is the number of
    vertices, and the dictionary sends the i-th vertex to i. *)
Definition builder_ok (b : @MeshProcessor.trimesh_builder F) : Prop :=
  MeshProcessor.tb_vertex_index b = length (MeshProcessor.tb_vertices b)
  /\ MeshProcessor.tb_vertex_map b
     = zip (MeshProcessor.tb_vertices b) (seq 0 (length (MeshProcessor.tb_vertices b))).

(** The state of [_stl_to_trimesh] after the triangles [vectors]. *)
Definition builder_after (vectors : list (triple (vec3 F)))
  : @MeshProcessor.trimesh_builder F * list face :=
  fold_left MeshProcessor.add_triangle vectors (MeshProcessor.mk_builder [] [] 0, []).

End Conversions.

(** A string without whitespace, and a word: a non-empty one. *)
Fixpoint nospace (s : string) : bool :=
  match s with
  | EmptyString => true
  | String c rest => negb (Str.isspace c) && nospace rest
  end.

Definition is_word (w : string) : Prop := w <> EmptyString /\ nospace w = true.

(** Componentwise order on rows of real numbers. *)
Definition vle (a b : vec3 R) : Prop :=
  let '(a0, a1, a2) := a in let '(b0, b1, b2) := b in
  (a0 <= b0)%R /\ (a1 <= b1)%R /\ (a2 <= b2)%R.

(** ** Example meshes, on binary64 *)

(** The triangle (0,0,0), (1,0,0), (0,1,0), of area 1/2. *)
Definition unit_triangle : list (vec3 PrimFloat.float) :=
  [ (of_Z 0, of_Z 0, of_Z 0); (of_Z 1, of_Z 0, of_Z 0); (of_Z 0, of_Z 1, of_Z 0) ].

(** The faces of [_create_cube], and the cube of edge 2 it builds translated
    by (2,2,2): a closed, consistently wound mesh of volume 8 that does not
    contain the origin. *)
Definition cube_faces : list face :=
  [ (0, 1, 2); (0, 2, 3); (4, 7, 6); (4, 6, 5); (0, 4, 5); (0, 5, 1);
    (2, 6, 7); (2, 7, 3); (0, 3, 7); (0, 7, 4); (1, 5, 6); (1, 6, 2) ].

Definition translated_cube : list (vec3 PrimFloat.float) :=
  [ (of_Z 1, of_Z 1, of_Z 1); (of_Z 3, of_Z 1, of_Z 1);
    (of_Z 3, of_Z 3, of_Z 1); (of_Z 1, of_Z 3, of_Z 1);
    (of_Z 1, of_Z 1, of_Z 3); (of_Z 3, of_Z 1, of_Z 3);
    (of_Z 3, of_Z 3, of_Z 3); (of_Z 1, of_Z 3, of_Z 3) ].

(** The eight vertices of the cube of edge 2, as an array of shape (8,3), and
    one face that names vertex 100. *)
Definition cube_vertices : ndarray PrimFloat.float :=
  fst (DemoText3DModel._create_cube (of_Z 2)).

Definition stray_face : ndarray Z := mk_ndarray [1%nat; 3%nat] [0; 1; 100].

(** A topology library that is not installed. *)
Definition no_trimesh (vs : list (vec3 PrimFloat.float)) (fs : list face)
  : result MeshProcessor.trimesh_mesh :=
  Raise (mk_exn OtherError "No module named 'trimesh'").

(** Three colinear points and two more vertices. *)
Definition colinear_mesh : list (vec3 PrimFloat.float) :=
  [ (of_Z 0, of_Z 0, of_Z 0); (of_Z 1, of_Z 0, of_Z 0); (of_Z 2, of_Z 0, of_Z 0);
    (of_Z 0, of_Z 1, of_Z 0); (of_Z 0, of_Z 0, of_Z 1) ].

(** A sliver with legs 1.5e-10 and 1: cross-product norm 1.5e-10, area
    0.75e-10; beside it a proper triangle. *)
Definition sliver : triple (vec3 PrimFloat.float) :=
  ((of_Z 0, of_Z 0, of_Z 0), (lit 3 20000000000, of_Z 0, of_Z 0),
   (of_Z 0, of_Z 1, of_Z 0)).

Definition sliver_mesh : list (vec3 PrimFloat.float) :=
  let '(v0, v1, v2) := sliver in [ v0; v1; v2; (of_Z 1, of_Z 0, of_Z 0) ].

(** Two vertices on the x axis, 2^-7 apart, near x = 1024; and a mesh with a
    repeated vertex. *)
Definition near_first : vec3 PrimFloat.float := (of_Z 1024, of_Z 0, of_Z 0).

Definition near_second : vec3 PrimFloat.float :=
  (fadd (of_Z 1024) (lit 1 128), of_Z 0, of_Z 0).

Definition near_pair : list (vec3 PrimFloat.float) := [ near_first; near_second ].

Definition repeated_vertex : list (vec3 PrimFloat.float) :=
  [ (of_Z 1, of_Z 0, of_Z 0); (of_Z 3, of_Z 0, of_Z 0); (of_Z 1, of_Z 0, of_Z 0) ].

(** Two triangles of an STL mesh that share an edge, and a mesh of six
    vertices, the fourth a copy of the second. *)
Definition two_triangles : list (triple (vec3 PrimFloat.float)) :=
  [ ((of_Z 0, of_Z 0, of_Z 0), (of_Z 1, of_Z 0, of_Z 0), (of_Z 0, of_Z 1, of_Z 0));
    ((of_Z 1, of_Z 0, of_Z 0), (of_Z 1, of_Z 1, of_Z 0), (of_Z 0, of_Z 1, of_Z 0)) ].

(** The faces of the cube as an array of shape (12,3). *)
Definition cube_indices : ndarray Z := DemoText3DModel.uint32_array cube_faces.

(** ** Indexing *)

Section Indexing.
Context {A : Type}.

Lemma np_index_ok (a : list A) (i : Z) :
  valid_index (length a) i -> exists x, np_index a i = Ok x.
Proof.
  unfold valid_index, np_index. intros Hi.
  destruct (Z.ltb_spec i (- Z.of_nat (length a))); [lia|].
  destruct (Z.leb_spec (Z.of_nat (length a)) i); [lia|]. simpl.
  destruct (a !! Z.to_nat (if i <? 0 then i + Z.of_nat (length a) else i)) as [x|] eqn:E.
  - eauto.
  - apply lookup_ge_None in E. destruct (Z.ltb_spec i 0); lia.
Qed.

Lemma np_index_raise (a : list A) (i : Z) :
  ~ valid_index (length a) i -> np_index a i = Raise index_error.
Proof.
  unfold valid_index, np_index. intros Hi.
  destruct (Z.ltb_spec i (- Z.of_nat (length a))); [done|].
  destruct (Z.leb_spec (Z.of_nat (length a)) i); [done|]. lia.
Qed.

Lemma take_rows_ok (a : list A) (f : face) :
  face_in_range (length a) f -> exists r, take_rows a f = Ok r.
Proof.
  destruct f as [[i0 i1] i2]. intros (H0 & H1 & H2).
  destruct (np_index_ok a i0 H0) as [x0 E0].
  destruct (np_index_ok a i1 H1) as [x1 E1].
  destruct (np_index_ok a i2 H2) as [x2 E2].
  exists (x0, x1, x2). unfold take_rows. rewrite E0, E1, E2. done.
Qed.

Lemma take_rows_raise (a : list A) (f : face) :
  ~ face_in_range (length a) f -> take_rows a f = Raise index_error.
Proof.
  destruct f as [[i0 i1] i2]. unfold face_in_range, take_rows. intros Hf.
  destruct (decide (valid_index (length a) i0)) as [H0|H0];
    [|by rewrite (np_index_raise a i0 H0)].
  destruct (np_index_ok a i0 H0) as [x0 ->]. simpl.
  destruct (decide (valid_index (length a) i1)) as [H1|H1];
    [|by rewrite (np_index_raise a i1 H1)].
  destruct (np_index_ok a i1 H1) as [x1 ->]. simpl.
  destruct (decide (valid_index (length a) i2)) as [H2|H2];
    [tauto|by rewrite (np_index_raise a i2 H2)].
Qed.

(** A loop whose body indexes the vertices with each face raises as soon as
    one face is out of range, whatever was accumulated before. *)
Lemma for_each_raises {S : Type} (a : list A) (k : S -> triple A -> result S)
  (faces : list face) (s : S) :
  Exists (fun f => ~ face_in_range (length a) f) faces ->
  exists e, for_each (fun s f => take_rows a f ≫= k s) faces s = Raise e.
Proof.
  intros Hex. revert s. induction faces as [|f faces IH]; intros s.
  - inversion Hex.
  - simpl. destruct (decide (face_in_range (length a) f)) as [Hf|Hf].
    + destruct (take_rows_ok a f Hf) as [r ->]. simpl.
      destruct (k s r) as [s'|e]; simpl; [|eauto].
      apply IH. inversion Hex; subst; [contradiction|assumption].
    + rewrite (take_rows_raise a f Hf). simpl. eauto.
Qed.

(** With every face in range, and a body that does not raise by itself, the
    loop ends normally, having folded the body over the indexed rows. *)
Lemma for_each_folds {S : Type} (a : list A) (k : S -> triple A -> result S)
  (g : S -> triple A -> S) (faces : list face) (s : S) :
  (forall s r, k s r = Ok (g s r)) ->
  Forall (face_in_range (length a)) faces ->
  exists rows, indexed_rows a faces = Some rows
    /\ for_each (fun s f => take_rows a f ≫= k s) faces s = Ok (fold_left g rows s).
Proof.
  intros Hk Hall. revert s. induction Hall as [|f faces Hf _ IH]; intros s.
  - exists []. done.
  - destruct (take_rows_ok a f Hf) as [r Er].
    destruct (IH (g s r)) as (rows & Hrows & Hloop).
    exists (r :: rows). unfold indexed_rows in *. simpl. rewrite Er. simpl.
    rewrite Hrows, Hk. simpl. done.
Qed.

End Indexing.

(** ** Surface area and volume *)

Section Estimators.
Context {F : Type} `{Floating F}.

(** With every face in range [_estimate_surface_area] is the sum of the area
    terms [|cross(v1 - v0, v2 - v0)| / 2] over all faces, in order. *)
Lemma surface_area_in_range (vertices : list (vec3 F)) (faces : list face) :
  Forall (face_in_range (length vertices)) faces ->
  exists rows, indexed_rows vertices faces = Some rows
    /\ MeshProcessor._estimate_surface_area vertices faces = sum_areas rows.
Proof.
  intros Hall. unfold MeshProcessor._estimate_surface_area, MeshProcessor.area_step.
  destruct (for_each_folds vertices
              (fun total r => let '(v0, v1, v2) := r in
                              Ok (fadd total (MeshProcessor.triangle_area v0 v1 v2)))
              (fun total '(v0, v1, v2) => fadd total (MeshProcessor.triangle_area v0 v1 v2))
              faces (of_Z 0)) as (rows & Hrows & Hloop); [|assumption|].
  - by intros s [[v0 v1] v2].
  - exists rows. split; [assumption|]. by rewrite Hloop.
Qed.

(** C1 (as amended): when some face holds an index numpy rejects, the
    exception leaves the loop of [_estimate_surface_area], the areas summed
    so far are discarded and the estimate is [0.0]. *)
Theorem surface_area_out_of_range (vertices : list (vec3 F)) (faces : list face) :
  Exists (fun f => ~ face_in_range (length vertices) f) faces ->
  MeshProcessor._estimate_surface_area vertices faces = of_Z 0.
Proof.
  intros Hex. unfold MeshProcessor._estimate_surface_area, MeshProcessor.area_step.
  destruct (for_each_raises vertices
              (fun total r => let '(v0, v1, v2) := r in
                              Ok (fadd total (MeshProcessor.triangle_area v0 v1 v2)))
              faces (of_Z 0) Hex) as [e He].
  by rewrite He.
Qed.

(** With every face in range [MeshProcessor._estimate_volume] is the absolute
    value of the total of the signed terms [dot(v0, cross(v1, v2)) / 6]: one
    [abs], applied after the loop. *)
Lemma mesh_volume_in_range (vertices : list (vec3 F)) (faces : list face) :
  Forall (face_in_range (length vertices)) faces ->
  exists rows, indexed_rows vertices faces = Some rows
    /\ MeshProcessor._estimate_volume vertices faces = fabs (sum_signed_volumes rows).
Proof.
  intros Hall. unfold MeshProcessor._estimate_volume, MeshProcessor.volume_step.
  destruct (for_each_folds vertices
              (fun total r => let '(v0, v1, v2) := r in
                              Ok (fadd total (MeshProcessor.signed_volume v0 v1 v2)))
              (fun total '(v0, v1, v2) => fadd total (MeshProcessor.signed_volume v0 v1 v2))
              faces (of_Z 0)) as (rows & Hrows & Hloop); [|assumption|].
  - by intros s [[v0 v1] v2].
  - exists rows. split; [assumption|]. by rewrite Hloop.
Qed.

(** [BaseText3DModel._estimate_volume] on the same input is the sum of the
    absolute values of the terms: [abs] is applied face by face. *)
Lemma base_volume_in_range (vertices : list (vec3 F)) (faces : list face) :
  Forall (face_in_range (length vertices)) faces ->
  exists rows, indexed_rows vertices faces = Some rows
    /\ BaseText3DModel._estimate_volume vertices faces
       = fold_left (fun total '(v0, v1, v2) =>
                      fadd total (fdiv (fabs (np_dot v0 (np_cross v1 v2))) (of_Z 6)))
                   rows (of_Z 0).
Proof.
  intros Hall. unfold BaseText3DModel._estimate_volume, BaseText3DModel.volume_step.
  destruct (for_each_folds vertices
              (fun total r => let '(v0, v1, v2) := r in
                              Ok (fadd total (fdiv (fabs (np_dot v0 (np_cross v1 v2))) (of_Z 6))))
              (fun total '(v0, v1, v2) =>
                 fadd total (fdiv (fabs (np_dot v0 (np_cross v1 v2))) (of_Z 6)))
              faces (of_Z 0)) as (rows & Hrows & Hloop); [|assumption|].
  - by intros s [[v0 v1] v2].
  - exists rows. split; [assumption|]. by rewrite Hloop.
Qed.

End Estimators.

(** *** On binary64 *)

(** C1, witness: the second face names vertex 7 of 3. *)
Lemma surface_area_out_of_range_witness :
  Exists (fun f => ~ face_in_range (length unit_triangle) f) [ (0, 1, 2); (0, 1, 7) ]
  /\ MeshProcessor._estimate_surface_area unit_triangle [ (0, 1, 2); (0, 1, 7) ] = of_Z 0.
Proof.
  assert (Hex : Exists (fun f => ~ face_in_range (length unit_triangle) f)
                       [ (0, 1, 2); (0, 1, 7) ]).
  { apply Exists_cons_tl, Exists_cons_hd. unfold face_in_range, valid_index. simpl. lia. }
  split; [exact Hex|].
  exact (surface_area_out_of_range unit_triangle [ (0, 1, 2); (0, 1, 7) ] Hex).
Defined.

(** C1, counterexample: one valid face of area 1/2 and one face with an
    out-of-range index.  Skipping the corrupt face would give 1/2; the code
    gives 0. *)
Lemma surface_area_partial_sum_discarded :
  surface_area_skipping unit_triangle [ (0, 1, 2); (0, 1, 7) ] = lit 1 2
  /\ MeshProcessor._estimate_surface_area unit_triangle [ (0, 1, 2); (0, 1, 7) ] = of_Z 0
  /\ feqb (MeshProcessor._estimate_surface_area unit_triangle [ (0, 1, 2); (0, 1, 7) ])
          (surface_area_skipping unit_triangle [ (0, 1, 2); (0, 1, 7) ]) = false.
Proof. repeat split; vm_compute; reflexivity. Qed.

(** C2: the two volume estimates differ.  On the translated cube, whose
    indices are all in range, [MeshProcessor._estimate_volume] is 8 (the
    absolute value of the signed total) and [BaseText3DModel._estimate_volume],
    which takes the absolute value of every term, is 16. *)
Theorem volume_estimates_differ :
  Forall (face_in_range (length translated_cube)) cube_faces
  /\ MeshProcessor._estimate_volume translated_cube cube_faces = of_Z 8
  /\ BaseText3DModel._estimate_volume translated_cube cube_faces = of_Z 16.
Proof.
  split; [|split; vm_compute; reflexivity].
  unfold cube_faces, face_in_range, valid_index. simpl. repeat constructor; lia.
Qed.

(** ** Bounding box and validation *)

Section Validation.
Context {F : Type} `{Floating F}.

(** On a non-empty array the box has four entries: the reductions of
    [np.minimum] and [np.maximum] over the rows, their difference and their
    midpoint. *)
Lemma bounding_box_nonempty (first : vec3 F) (rest : list (vec3 F)) :
  let box := MeshProcessor._calculate_bounding_box (first :: rest) in
  let lo := np_min_axis0 first rest in
  let hi := np_max_axis0 first rest in
  box !! "min" = Some lo
  /\ box !! "max" = Some hi
  /\ box !! "size" = Some (vsub hi lo)
  /\ box !! "center" = Some (vdiv (vadd lo hi) (of_Z 2)).
Proof. repeat split; reflexivity. Qed.

(** C6: on the empty array [_calculate_bounding_box] returns the zero [min],
    [max] and [size], and no [center] entry, although the branch for a
    non-empty array returns one. *)
Theorem bounding_box_empty_has_no_center :
  let box := MeshProcessor._calculate_bounding_box (F := F) [] in
  let zeros : vec3 F := (of_Z 0, of_Z 0, of_Z 0) in
  box !! "min" = Some zeros
  /\ box !! "max" = Some zeros
  /\ box !! "size" = Some zeros
  /\ box !! "center" = None.
Proof. repeat split; reflexivity. Qed.

Variable Trimesh : list (vec3 F) -> list face -> result MeshProcessor.trimesh_mesh.

(** The topology block changes neither the verdict nor the errors, and
    touches only the two topology entries of the statistics. *)
Lemma topology_block_frame (v : MeshProcessor.validation)
  (vs : list (vec3 F)) (fs : list face) :
  let v' := MeshProcessor.topology_block Trimesh v vs fs in
  MeshProcessor.is_valid v' = MeshProcessor.is_valid v
  /\ MeshProcessor.errors v' = MeshProcessor.errors v
  /\ forall key, key <> "is_manifold" -> key <> "is_watertight" ->
       MeshProcessor.stats v' !! key = MeshProcessor.stats v !! key.
Proof.
  unfold MeshProcessor.topology_block, MeshProcessor.advanced_validation.
  destruct (Trimesh vs fs) as [tm|e]; [|done].
  destruct (MeshProcessor.tm_is_manifold tm) as [m|e]; [|done].
  destruct (MeshProcessor.tm_is_watertight tm) as [w|e]; simpl.
  - destruct m, w; simpl; (split; [done|split; [done|]]); intros key H1 H2;
      by rewrite !lookup_insert_ne.
  - split; [done|split; [done|]]. intros key H1 H2. by rewrite lookup_insert_ne.
Qed.

(** On arrays of shape (N,3) and (M,3) [validate_mesh] returns a report: its
    verdict and errors are those of the structural tests, and its statistics
    hold the five entries computed from the arrays. *)
Lemma validate_mesh_report (vertices : ndarray F) (faces : ndarray Z) (N M : nat) :
  shape vertices = [N; 3%nat] ->
  shape faces = [M; 3%nat] ->
  exists report,
    MeshProcessor.validate_mesh Trimesh vertices faces = Some report
    /\ MeshProcessor.is_valid report
       = MeshProcessor.is_valid (MeshProcessor.structural_checks vertices faces)
    /\ MeshProcessor.errors report
       = MeshProcessor.errors (MeshProcessor.structural_checks vertices faces)
    /\ MeshProcessor.stats report !! "vertex_count" = Some (VInt (Z.of_nat N))
    /\ MeshProcessor.stats report !! "face_count" = Some (VInt (Z.of_nat M))
    /\ MeshProcessor.stats report !! "bounding_box"
       = Some (VBox (MeshProcessor._calculate_bounding_box (rows3 (data vertices))))
    /\ MeshProcessor.stats report !! "surface_area"
       = Some (VFloat (MeshProcessor._estimate_surface_area
                         (rows3 (data vertices)) (rows3 (data faces))))
    /\ MeshProcessor.stats report !! "volume"
       = Some (VFloat (MeshProcessor._estimate_volume
                         (rows3 (data vertices)) (rows3 (data faces)))).
Proof.
  intros Hv Hf.
  assert (HN : len vertices = N) by (unfold len; by rewrite Hv).
  assert (HM : len faces = M) by (unfold len; by rewrite Hf).
  unfold MeshProcessor.validate_mesh, as_rows3. rewrite Hv, Hf, HN, HM. simpl.
  eexists. split; [reflexivity|].
  match goal with
  | |- context [MeshProcessor.topology_block Trimesh ?v ?vs ?fs] =>
      destruct (topology_block_frame v vs fs) as (Hvalid & Herrors & Hstats)
  end.
  simpl in Hvalid, Herrors, Hstats.
  split; [exact Hvalid|]. split; [exact Herrors|].
  repeat split; (rewrite Hstats; [reflexivity|done|done]).
Qed.

(** C5: on the pair of empty arrays of shape (0,3) the report is invalid and
    its errors are the two emptiness messages, in this order, and nothing
    else: neither shape test nor index test adds one. *)
Theorem validate_empty_mesh :
  exists report,
    MeshProcessor.validate_mesh Trimesh (mk_ndarray [0%nat; 3%nat] [])
                                (mk_ndarray [0%nat; 3%nat] []) = Some report
    /\ MeshProcessor.is_valid report = false
    /\ MeshProcessor.errors report = [ "No vertices found"; "No faces found" ].
Proof.
  destruct (validate_mesh_report (mk_ndarray [0%nat; 3%nat] [])
              (mk_ndarray [0%nat; 3%nat] []) 0 0 eq_refl eq_refl)
    as (report & Hrun & Hvalid & Herrors & _).
  exists report. by rewrite Hvalid, Herrors.
Qed.

(** C10: for arrays of shape (N,3) and (M,3) the statistics of the report
    are computed from the arrays, whatever the structural tests found:
    [vertex_count = N], [face_count = M], and the bounding box, the surface
    area and the volume are what [_calculate_bounding_box],
    [_estimate_surface_area] and [_estimate_volume] return on the rows of
    the two arrays.  So, valid or not, when the array has a row the box
    holds the reductions of [np.minimum] and [np.maximum] over the rows and
    their difference; and when numpy can read every face (negative indices
    included, which the structural tests reject) the area is the sum of the
    area terms of all faces and the volume the absolute value of the total
    of the signed terms.  The theorem assumes nothing on the verdict, the
    data or the indices, and what the topology library answers changes none
    of the five entries. *)
Theorem validate_stats_unconditional (vertices : ndarray F) (faces : ndarray Z)
  (N M : nat) :
  shape vertices = [N; 3%nat] ->
  shape faces = [M; 3%nat] ->
  exists report,
    MeshProcessor.validate_mesh Trimesh vertices faces = Some report
    /\ MeshProcessor.stats report !! "vertex_count" = Some (VInt (Z.of_nat N))
    /\ MeshProcessor.stats report !! "face_count" = Some (VInt (Z.of_nat M))
    /\ MeshProcessor.stats report !! "bounding_box"
       = Some (VBox (MeshProcessor._calculate_bounding_box (rows3 (data vertices))))
    /\ MeshProcessor.stats report !! "surface_area"
       = Some (VFloat (MeshProcessor._estimate_surface_area
                         (rows3 (data vertices)) (rows3 (data faces))))
    /\ MeshProcessor.stats report !! "volume"
       = Some (VFloat (MeshProcessor._estimate_volume
                         (rows3 (data vertices)) (rows3 (data faces))))
    /\ (forall first rest, rows3 (data vertices) = first :: rest ->
        exists box,
          MeshProcessor.stats report !! "bounding_box" = Some (VBox box)
          /\ box !! "min" = Some (np_min_axis0 first rest)
          /\ box !! "max" = Some (np_max_axis0 first rest)
          /\ box !! "size"
             = Some (vsub (np_max_axis0 first rest) (np_min_axis0 first rest)))
    /\ (Forall (face_in_range (length (rows3 (data vertices)))) (rows3 (data faces)) ->
        exists rows,
          indexed_rows (rows3 (data vertices)) (rows3 (data faces)) = Some rows
          /\ MeshProcessor.stats report !! "surface_area"
             = Some (VFloat (sum_areas rows))
          /\ MeshProcessor.stats report !! "volume"
             = Some (VFloat (fabs (sum_signed_volumes rows)))).
Proof.
  intros Hv Hf.
  destruct (validate_mesh_report vertices faces N M Hv Hf)
    as (report & Hrun & _ & _ & Hn & Hm & Hbox & Harea & Hvol).
  exists report. split; [exact Hrun|]. split; [exact Hn|]. split; [exact Hm|].
  split; [exact Hbox|]. split; [exact Harea|]. split; [exact Hvol|]. split.
  - intros first rest Hrows. rewrite Hrows in Hbox.
    destruct (bounding_box_nonempty first rest) as (Hmin & Hmax & Hsize & _).
    eexists. split; [exact Hbox|]. split; [exact Hmin|]. split; [exact Hmax|exact Hsize].
  - intros Hall.
    destruct (surface_area_in_range _ _ Hall) as (rows & Hrows & Hsum).
    destruct (mesh_volume_in_range _ _ Hall) as (rows' & Hrows' & Hsum').
    rewrite Hrows in Hrows'. injection Hrows' as <-.
    exists rows. split; [exact Hrows|]. by rewrite Harea, Hvol, Hsum, Hsum'.
Qed.

End Validation.

(** *** In exact arithmetic *)

Lemma vle_refl (a : vec3 R) : vle a a.
Proof. destruct a as [[a0 a1] a2]. unfold vle. lra. Qed.

Lemma vle_trans (a b c : vec3 R) : vle a b -> vle b c -> vle a c.
Proof.
  destruct a as [[a0 a1] a2], b as [[b0 b1] b2], c as [[c0 c1] c2].
  unfold vle. lra.
Qed.

Lemma vminimum_le_l (a b : vec3 R) : vle (vminimum a b) a.
Proof.
  destruct a as [[a0 a1] a2], b as [[b0 b1] b2]. unfold vle, vminimum. simpl.
  pose proof (Rmin_l a0 b0). pose proof (Rmin_l a1 b1). pose proof (Rmin_l a2 b2). lra.
Qed.

Lemma vminimum_le_r (a b : vec3 R) : vle (vminimum a b) b.
Proof.
  destruct a as [[a0 a1] a2], b as [[b0 b1] b2]. unfold vle, vminimum. simpl.
  pose proof (Rmin_r a0 b0). pose proof (Rmin_r a1 b1). pose proof (Rmin_r a2 b2). lra.
Qed.

Lemma vmaximum_ge_l (a b : vec3 R) : vle a (vmaximum a b).
Proof.
  destruct a as [[a0 a1] a2], b as [[b0 b1] b2]. unfold vle, vmaximum. simpl.
  pose proof (Rmax_l a0 b0). pose proof (Rmax_l a1 b1). pose proof (Rmax_l a2 b2). lra.
Qed.

Lemma vmaximum_ge_r (a b : vec3 R) : vle b (vmaximum a b).
Proof.
  destruct a as [[a0 a1] a2], b as [[b0 b1] b2]. unfold vle, vmaximum. simpl.
  pose proof (Rmax_r a0 b0). pose proof (Rmax_r a1 b1). pose proof (Rmax_r a2 b2). lra.
Qed.

Lemma fold_vminimum_le (rest : list (vec3 R)) (acc : vec3 R) :
  vle (fold_left vminimum rest acc) acc.
Proof.
  revert acc. induction rest as [|r rest IH]; intros acc; [apply vle_refl|].
  simpl. eapply vle_trans; [apply IH|apply vminimum_le_l].
Qed.

Lemma fold_vmaximum_ge (rest : list (vec3 R)) (acc : vec3 R) :
  vle acc (fold_left vmaximum rest acc).
Proof.
  revert acc. induction rest as [|r rest IH]; intros acc; [apply vle_refl|].
  simpl. eapply vle_trans; [apply vmaximum_ge_l|apply IH].
Qed.

(** Over the reals the [min] and [max] entries of the box bound every vertex,
    coordinate by coordinate. *)
Lemma bounding_box_bounds (first : vec3 R) (rest : list (vec3 R)) (v : vec3 R) :
  v ∈ first :: rest ->
  vle (np_min_axis0 first rest) v /\ vle v (np_max_axis0 first rest).
Proof.
  unfold np_min_axis0, np_max_axis0. revert first.
  induction rest as [|r rest IH]; intros first Hv.
  - apply list_elem_of_singleton in Hv as ->. split; apply vle_refl.
  - simpl. apply elem_of_cons in Hv as [->|Hv]; [|apply elem_of_cons in Hv as [->|Hv]].
    + split.
      * eapply vle_trans; [apply fold_vminimum_le|apply vminimum_le_l].
      * eapply vle_trans; [apply vmaximum_ge_l|apply fold_vmaximum_ge].
    + split.
      * eapply vle_trans; [apply fold_vminimum_le|apply vminimum_le_r].
      * eapply vle_trans; [apply vmaximum_ge_r|apply fold_vmaximum_ge].
    + split.
      * apply (IH (vminimum first r)). apply elem_of_cons. by right.
      * apply (IH (vmaximum first r)). apply elem_of_cons. by right.
Qed.

(** ** The demo generator *)

Section Generators.
Context {F : Type} `{Floating F} `{Libm F}.

Ltac count_mesh :=
  unfold mesh_counts;
  repeat split; try (vm_compute; reflexivity);
  apply (bool_decide_unpack _); vm_compute; reflexivity.

Lemma cube_counts (size : F) : mesh_counts (DemoText3DModel._create_cube size) 8 12.
Proof. count_mesh. Qed.

Lemma sphere_counts (size : F) :
  mesh_counts (DemoText3DModel._create_sphere size) 561 1024.
Proof. count_mesh. Qed.

Lemma cylinder_counts (size : F) :
  mesh_counts (DemoText3DModel._create_cylinder size) 34 64.
Proof. count_mesh. Qed.

Lemma pyramid_counts (size : F) : mesh_counts (DemoText3DModel._create_pyramid size) 5 6.
Proof. count_mesh. Qed.

(** C9: for each of the four kinds, and every size (0.5, 1.0 and 2.0 among
    them: the counts and the indices do not depend on it), the generator
    returns a vertex array of shape (N,3) and a face array of shape (M,3)
    with every face index in [0, N), where (N, M) is (8, 12) for the cube,
    (17 * 33, 2 * 16 * 32) = (561, 1024) for the sphere, (2 + 2 * 16, 4 * 16)
    = (34, 64) for the cylinder and (5, 6) for the pyramid. *)
Theorem generator_counts (size : F) :
  mesh_counts (DemoText3DModel.create "cube" size) 8 12
  /\ mesh_counts (DemoText3DModel.create "sphere" size)
       (Z.to_nat ((DemoText3DModel.lat_segments + 1) * (DemoText3DModel.lon_segments + 1)))
       (Z.to_nat (2 * DemoText3DModel.lat_segments * DemoText3DModel.lon_segments))
  /\ mesh_counts (DemoText3DModel.create "cylinder" size)
       (Z.to_nat (2 + 2 * DemoText3DModel.segments))
       (Z.to_nat (4 * DemoText3DModel.segments))
  /\ mesh_counts (DemoText3DModel.create "pyramid" size) 5 6.
Proof.
  split; [exact (cube_counts size)|].
  split; [exact (sphere_counts size)|].
  split; [exact (cylinder_counts size)|exact (pyramid_counts size)].
Qed.

Lemma rows3_flatten3 {A : Type} (rows : list (triple A)) : rows3 (flatten3 rows) = rows.
Proof.
  induction rows as [|[[a b] c] rows IH]; [done|].
  unfold flatten3 in *. simpl. by rewrite IH.
Qed.

Lemma as_rows3_np_array {A : Type} (rows : list (triple A)) :
  rows <> [] -> as_rows3 (np_array rows) = Some rows.
Proof.
  destruct rows as [|r rows]; [done|]. intros _.
  unfold as_rows3, np_array. cbn [shape data]. by rewrite rows3_flatten3.
Qed.

(** [postprocess_geometry] accepts the arrays numpy builds from non-empty
    lists of rows, and returns them with the metadata. *)
Lemma postprocess_np_array (vrows : list (vec3 F)) (frows : list face) :
  vrows <> [] -> frows <> [] ->
  exists metadata,
    BaseText3DModel.postprocess_geometry (np_array vrows) (np_array frows)
    = Ok (BaseText3DModel.mk_generated (np_array vrows) (np_array frows) metadata).
Proof.
  intros Hv Hf. unfold BaseText3DModel.postprocess_geometry.
  rewrite (as_rows3_np_array vrows Hv), (as_rows3_np_array frows Hf).
  destruct vrows as [|v vrows]; [done|]. destruct frows as [|f frows]; [done|].
  simpl. eauto.
Qed.

(** Every generator hands non-empty lists of rows to numpy. *)
Lemma create_rows (shape_type : string) (size : F) :
  exists vrows frows,
    DemoText3DModel.create shape_type size = (np_array vrows, np_array frows)
    /\ vrows <> [] /\ frows <> [].
Proof.
  unfold DemoText3DModel.create.
  destruct (String.eqb shape_type "sphere");
    [|destruct (String.eqb shape_type "cylinder");
      [|destruct (String.eqb shape_type "pyramid")]];
    (eexists; eexists; split; [reflexivity|]);
    split; intros Hnil; apply (f_equal length) in Hnil; vm_compute in Hnil; discriminate.
Qed.

(** A prompt that passes the content filter is cleaned and handed on. *)
Lemma preprocess_prompt_ok (prompt : string) :
  Forall (fun word => Str.contains word (BaseText3DModel.clean prompt) = false)
         BaseText3DModel.banned_words ->
  BaseText3DModel.preprocess_prompt prompt = Ok (BaseText3DModel.clean prompt).
Proof.
  unfold BaseText3DModel.preprocess_prompt. intros Hclean.
  assert (Hfilter : BaseText3DModel.content_filter BaseText3DModel.banned_words
                      (BaseText3DModel.clean prompt) = Ok tt).
  { induction Hclean as [|word words Hword _ IH]; [done|]. simpl. by rewrite Hword. }
  by rewrite Hfilter.
Qed.

(** A prompt without keywords gives the defaults. *)
Lemma extract_defaults (cleaned : string) :
  DemoText3DModel.any_in
    (DemoText3DModel.sphere_words ++ DemoText3DModel.cylinder_words
     ++ DemoText3DModel.pyramid_words) cleaned = false ->
  DemoText3DModel.any_in
    (DemoText3DModel.small_words ++ DemoText3DModel.large_words) cleaned = false ->
  DemoText3DModel._extract_shape_type cleaned = "cube"
  /\ DemoText3DModel._extract_size cleaned = of_Z 1.
Proof.
  unfold DemoText3DModel._extract_shape_type, DemoText3DModel._extract_size.
  unfold DemoText3DModel.any_in.
  rewrite !existsb_app, !orb_false_iff.
  intros (-> & -> & ->) (-> & ->). done.
Qed.

(** C3 (as amended): when the cleaned prompt contains none of the banned
    words, [generate_3d] returns a result, whose shape type is the one read
    from the prompt; if moreover the prompt holds no shape and no size
    keyword, the result is the cube of size 1.0. *)
Theorem demo_generation_succeeds (prompt : string) :
  Forall (fun word => Str.contains word (BaseText3DModel.clean prompt) = false)
         BaseText3DModel.banned_words ->
  exists result,
    DemoText3DModel.generate_3d prompt = Ok result
    /\ BaseText3DModel.metadata result !! "shape_type"
       = Some (VStr (DemoText3DModel._extract_shape_type (BaseText3DModel.clean prompt)))
    /\ (DemoText3DModel.any_in
          (DemoText3DModel.sphere_words ++ DemoText3DModel.cylinder_words
           ++ DemoText3DModel.pyramid_words) (BaseText3DModel.clean prompt) = false ->
        DemoText3DModel.any_in
          (DemoText3DModel.small_words ++ DemoText3DModel.large_words)
          (BaseText3DModel.clean prompt) = false ->
        BaseText3DModel.metadata result !! "shape_type" = Some (VStr "cube")
        /\ (BaseText3DModel.vertices result, BaseText3DModel.faces result)
           = DemoText3DModel._create_cube (of_Z 1)).
Proof.
  intros Hclean. unfold DemoText3DModel.generate_3d.
  rewrite (preprocess_prompt_ok prompt Hclean). simpl.
  set (cleaned := BaseText3DModel.clean prompt).
  destruct (create_rows (DemoText3DModel._extract_shape_type cleaned)
              (DemoText3DModel._extract_size cleaned))
    as (vrows & frows & Hcreate & Hv & Hf).
  destruct (postprocess_np_array vrows frows Hv Hf) as [metadata Hpost].
  rewrite Hcreate, Hpost. simpl.
  eexists. split; [reflexivity|]. simpl.
  split.
  - rewrite lookup_insert_ne by done. by rewrite lookup_insert_eq.
  - intros Hshape Hsize.
    destruct (extract_defaults cleaned Hshape Hsize) as [Eshape Esize].
    rewrite Eshape, Esize in Hcreate.
    split.
    + rewrite lookup_insert_ne by done. by rewrite lookup_insert_eq, Eshape.
    + symmetry. exact Hcreate.
Qed.

(** A prompt whose cleaned form contains a banned word is rejected: the
    ValueError of [preprocess_prompt] leaves [generate_3d]. *)
Lemma banned_prompt_rejected (prompt : string) :
  Exists (fun word => Str.contains word (BaseText3DModel.clean prompt) = true)
         BaseText3DModel.banned_words ->
  exists e, DemoText3DModel.generate_3d prompt = Raise e /\ exn_class e = ValueError.
Proof.
  intros Hbanned. unfold DemoText3DModel.generate_3d, BaseText3DModel.preprocess_prompt.
  assert (Hfilter : exists e,
            BaseText3DModel.content_filter BaseText3DModel.banned_words
              (BaseText3DModel.clean prompt) = Raise e /\ exn_class e = ValueError).
  { induction Hbanned as [word words Hword|word words _ IH]; simpl.
    - rewrite Hword. eauto.
    - destruct (Str.contains word (BaseText3DModel.clean prompt)); eauto. }
  destruct Hfilter as (e & -> & He). simpl. eauto.
Qed.

End Generators.

(** *** On concrete prompts and arrays *)

(** C3, witness: a prompt with no keyword at all. *)
Lemma demo_generation_succeeds_witness :
  Forall (fun word => Str.contains word (BaseText3DModel.clean "  A Red   Box ") = false)
         BaseText3DModel.banned_words
  /\ exists result,
       DemoText3DModel.generate_3d (F := R) "  A Red   Box " = Ok result
       /\ BaseText3DModel.metadata result !! "shape_type" = Some (VStr "cube").
Proof.
  assert (Hclean : Forall (fun word =>
                     Str.contains word (BaseText3DModel.clean "  A Red   Box ") = false)
                     BaseText3DModel.banned_words)
    by (repeat constructor).
  split; [exact Hclean|].
  destruct (demo_generation_succeeds (F := R) "  A Red   Box " Hclean)
    as (result & Hrun & Hshape & _).
  exists result. split; [exact Hrun|exact Hshape].
Defined.

(** C3, counterexample: the prompt "nsfw" holds no shape and no size keyword,
    and [generate_3d] raises ValueError on it. *)
Lemma banned_prompt_raises :
  DemoText3DModel.any_in
    (DemoText3DModel.sphere_words ++ DemoText3DModel.cylinder_words
     ++ DemoText3DModel.pyramid_words) (BaseText3DModel.clean "nsfw") = false
  /\ DemoText3DModel.any_in
       (DemoText3DModel.small_words ++ DemoText3DModel.large_words)
       (BaseText3DModel.clean "nsfw") = false
  /\ DemoText3DModel.generate_3d (F := R) "nsfw"
     = Raise (mk_exn ValueError "Inappropriate content detected: nsfw").
Proof. repeat split; reflexivity. Qed.

(** The cube vertices with the stray face fail the index test. *)
Lemma stray_face_report :
  MeshProcessor.errors (MeshProcessor.structural_checks cube_vertices stray_face)
  = [ "Face indices exceed vertex count" ].
Proof. reflexivity. Qed.

(** C10, witness: the cube vertices with the stray face, an invalid mesh
    whose report holds the five statistics computed from the arrays. *)
Lemma validate_stats_unconditional_witness :
  shape cube_vertices = [8%nat; 3%nat]
  /\ shape stray_face = [1%nat; 3%nat]
  /\ exists report,
       MeshProcessor.validate_mesh no_trimesh cube_vertices stray_face = Some report
       /\ MeshProcessor.is_valid report = false
       /\ MeshProcessor.stats report !! "vertex_count" = Some (VInt 8)
       /\ MeshProcessor.stats report !! "face_count" = Some (VInt 1)
       /\ MeshProcessor.stats report !! "bounding_box"
          = Some (VBox (MeshProcessor._calculate_bounding_box
                          (rows3 (data cube_vertices))))
       /\ MeshProcessor.stats report !! "surface_area"
          = Some (VFloat (MeshProcessor._estimate_surface_area
                            (rows3 (data cube_vertices)) (rows3 (data stray_face))))
       /\ MeshProcessor.stats report !! "volume"
          = Some (VFloat (MeshProcessor._estimate_volume
                            (rows3 (data cube_vertices)) (rows3 (data stray_face)))).
Proof.
  split; [reflexivity|]. split; [reflexivity|].
  destruct (validate_stats_unconditional no_trimesh cube_vertices stray_face 8 1
              eq_refl eq_refl)
    as (report & Hrun & Hn & Hm & Hbox & Harea & Hvolume & _).
  destruct (validate_mesh_report no_trimesh cube_vertices stray_face 8 1
              eq_refl eq_refl) as (report' & Hrun' & Hvalid & _).
  rewrite Hrun in Hrun'. injection Hrun' as <-.
  exists report. split; [exact Hrun|]. split; [by rewrite Hvalid|].
  split; [exact Hn|]. split; [exact Hm|]. split; [exact Hbox|].
  split; [exact Harea|exact Hvolume].
Defined.

(** The same report, in full: its verdict, and the zero area and volume the
    estimators return once the stray index has raised. *)
Lemma stray_face_statistics :
  exists report,
    MeshProcessor.validate_mesh no_trimesh cube_vertices stray_face = Some report
    /\ MeshProcessor.is_valid report = false
    /\ MeshProcessor.stats report !! "surface_area" = Some (VFloat (of_Z 0))
    /\ MeshProcessor.stats report !! "volume" = Some (VFloat (of_Z 0)).
Proof.
  destruct (validate_mesh_report no_trimesh cube_vertices stray_face 8 1
              eq_refl eq_refl)
    as (report & Hrun & Hvalid & _ & _ & _ & _ & Harea & Hvolume).
  exists report. split; [exact Hrun|]. split; [by rewrite Hvalid|].
  split; [by rewrite Harea|by rewrite Hvolume].
Qed.

(** ** Degenerate faces *)

Ltac distinct_list :=
  repeat (apply NoDup_cons; split;
          [rewrite ?not_elem_of_cons; repeat split; auto using not_elem_of_nil|]);
  apply NoDup_nil_2.

Ltac same_set :=
  apply set_eq; intros ?;
  rewrite !elem_of_list_to_set, !elem_of_cons, !elem_of_nil; tauto.

Lemma distinct_indices_three (f : face) :
  (MeshProcessor.distinct_indices f =? 3)%nat = pairwise_distinct f.
Proof.
  destruct f as [[i0 i1] i2]. unfold MeshProcessor.distinct_indices, pairwise_distinct.
  assert (Hsize : forall l l' : list Z, NoDup l' ->
            (list_to_set l : gset Z) = list_to_set l' ->
            size (list_to_set l : gset Z) = length l').
  { intros l l' Hnodup ->. by apply size_list_to_set. }
  destruct (Z.eqb_spec i0 i1), (Z.eqb_spec i0 i2), (Z.eqb_spec i1 i2);
    subst; try congruence;
    match goal with
    | |- context [list_to_set [?a; ?b; ?c]] =>
        first [ rewrite (Hsize _ [a]); [done|distinct_list|same_set]
              | rewrite (Hsize _ [a; b]); [done|distinct_list|same_set]
              | rewrite (Hsize _ [a; c]); [done|distinct_list|same_set]
              | rewrite (Hsize _ [a; b; c]); [done|distinct_list|done] ]
    end.
Qed.

Section Degenerate.
Context {F : Type} `{Floating F}.

Lemma keeps_face_degenerate (vertices : list (vec3 F)) (f : face) :
  MeshProcessor.keeps_face vertices f = negb (degenerate vertices f).
Proof.
  unfold MeshProcessor.keeps_face, degenerate, cross_norm.
  rewrite distinct_indices_three.
  destruct (pairwise_distinct f); simpl; [|done].
  destruct (take_rows vertices f) as [[[v0 v1] v2]|e]; simpl; [|done].
  by rewrite negb_involutive.
Qed.

(** [_remove_degenerate_faces] keeps, in their order, the faces that are not
    degenerate, and returns its argument when none is left. *)
Lemma remove_degenerate_faces_filter (vertices : list (vec3 F)) (faces : list face) :
  MeshProcessor._remove_degenerate_faces vertices faces
  = match List.filter (fun f => negb (degenerate vertices f)) faces with
    | [] => faces
    | kept => kept
    end.
Proof.
  unfold MeshProcessor._remove_degenerate_faces.
  rewrite (List.filter_ext _ _ (keeps_face_degenerate vertices)).
  by destruct (List.filter _ faces).
Qed.

End Degenerate.

(** C7 (as amended): [_remove_degenerate_faces] drops exactly the faces that
    name a vertex index more than once or whose cross-product norm
    [|cross(v1 - v0, v2 - v0)|], twice the triangle area, does not exceed
    1e-10 (a face whose rows cannot be read is dropped too); the others stay
    in their order, and when none stays the argument is returned.  On three
    colinear points and two proper triangles it returns the two triangles. *)
Theorem remove_degenerate_faces_amended :
  (forall (F : Type) (ops : Floating F) (vertices : list (vec3 F)) (faces : list face),
     MeshProcessor._remove_degenerate_faces vertices faces
     = match List.filter (fun f => negb (degenerate vertices f)) faces with
       | [] => faces
       | kept => kept
       end)
  /\ MeshProcessor._remove_degenerate_faces colinear_mesh
       [ (0, 1, 2); (0, 1, 3); (0, 3, 4) ] = [ (0, 1, 3); (0, 3, 4) ].
Proof.
  split.
  - intros F ops vertices faces. apply remove_degenerate_faces_filter.
  - vm_compute. reflexivity.
Qed.

(** C7, counterexample: the area of the sliver is at most 1e-10, and the
    sliver is kept (the face with a repeated index is dropped). *)
Lemma sliver_is_kept :
  take_rows sliver_mesh (0, 1, 2) = Ok sliver
  /\ (let '(v0, v1, v2) := sliver in
      fleb (MeshProcessor.triangle_area v0 v1 v2) (lit 1 (10 ^ 10))) = true
  /\ MeshProcessor._remove_degenerate_faces sliver_mesh
       [ (0, 1, 2); (0, 0, 3); (0, 3, 2) ] = [ (0, 1, 2); (0, 3, 2) ].
Proof. repeat split; vm_compute; reflexivity. Qed.

(** ** Welding *)

Lemma enumerate_snoc {A : Type} (l : list A) (x : A) :
  MeshProcessor.enumerate (l ++ [x])
  = MeshProcessor.enumerate l ++ [(Z.of_nat (length l), x)].
Proof.
  unfold MeshProcessor.enumerate. rewrite length_app. simpl.
  replace (Z.of_nat (length l + 1)) with (Z.of_nat (length l) + 1) by lia.
  rewrite seqZ_app by lia.
  rewrite zip_with_app by (rewrite length_seqZ; lia).
  reflexivity.
Qed.

Section Welding.
Context {F : Type} `{Floating F}.
Variable tolerance : F.

Lemma find_close_none (vertex : vec3 F) (kept : list (vec3 F)) (j0 : nat) :
  MeshProcessor.find_close vertex kept tolerance j0 = None ->
  forall u, u ∈ kept -> np_allclose vertex u tolerance = false.
Proof.
  revert j0. induction kept as [|u0 kept IH]; intros j0 Hfind u Hu.
  - by apply elem_of_nil in Hu.
  - simpl in Hfind. destruct (np_allclose vertex u0 tolerance) eqn:E; [done|].
    apply elem_of_cons in Hu as [->|Hu]; [done|]. by apply (IH (S j0)).
Qed.

Lemma find_close_none_intro (vertex : vec3 F) (kept : list (vec3 F)) (j0 : nat) :
  (forall u, u ∈ kept -> np_allclose vertex u tolerance = false) ->
  MeshProcessor.find_close vertex kept tolerance j0 = None.
Proof.
  revert j0. induction kept as [|u0 kept IH]; intros j0 Hnone; [done|].
  simpl. rewrite (Hnone u0) by (apply elem_of_cons; by left).
  apply IH. intros u Hu. apply Hnone. apply elem_of_cons. by right.
Qed.

Lemma find_close_some (vertex : vec3 F) (kept : list (vec3 F)) (j0 j : nat) :
  MeshProcessor.find_close vertex kept tolerance j0 = Some j ->
  exists k u, j = (j0 + k)%nat /\ kept !! k = Some u
    /\ np_allclose vertex u tolerance = true
    /\ forall k' u', (k' < k)%nat -> kept !! k' = Some u' ->
         np_allclose vertex u' tolerance = false.
Proof.
  revert j0. induction kept as [|u0 kept IH]; intros j0 Hfind; [done|].
  simpl in Hfind. destruct (np_allclose vertex u0 tolerance) eqn:E.
  - injection Hfind as <-. exists 0%nat, u0.
    split; [lia|]. split; [done|]. split; [done|]. intros k' u' Hlt. lia.
  - destruct (IH (S j0) Hfind) as (k & u & -> & Hk & Hclose & Hfirst).
    exists (S k), u. split; [lia|]. split; [done|]. split; [done|].
    intros [|k'] u' Hlt Hk'.
    + by injection Hk' as <-.
    + apply (Hfirst k' u'); [lia|done].
Qed.

Lemma weld_state_snoc (vertices : list (vec3 F)) (vertex : vec3 F) :
  weld_state tolerance (vertices ++ [vertex])
  = MeshProcessor.weld_step tolerance (weld_state tolerance vertices)
      (Z.of_nat (length vertices), vertex).
Proof. unfold weld_state. by rewrite enumerate_snoc, fold_left_app. Qed.

(** The first loop of [_remove_duplicate_vertices] welds, and its dictionary
    holds the new index of every vertex read. *)
Lemma weld_state_welded (vertices : list (vec3 F)) :
  exists new_index,
    welded tolerance vertices (fst (weld_state tolerance vertices)) new_index
    /\ length new_index = length vertices
    /\ forall i j, new_index !! i = Some j ->
         snd (weld_state tolerance vertices) !! Z.of_nat i = Some (Z.of_nat j).
Proof.
  induction vertices as [|vertex vertices IH] using rev_ind.
  - exists []. split; [constructor|]. split; [done|]. intros i j Hi. done.
  - destruct IH as (new_index & Hwelded & Hlen & Hdict).
    rewrite weld_state_snoc.
    destruct (weld_state tolerance vertices) as [kept mapping]. simpl in *.
    assert (Hold : forall (jnew : Z) i j, new_index !! i = Some j ->
              <[Z.of_nat (length vertices) := jnew]> mapping !! Z.of_nat i
              = Some (Z.of_nat j)).
    { intros jnew i j Hi. rewrite lookup_insert_ne; [by apply Hdict|].
      apply lookup_lt_Some in Hi. lia. }
    destruct (MeshProcessor.find_close vertex kept tolerance 0) as [j|] eqn:Hfind.
    + destruct (find_close_some vertex kept 0 j Hfind)
        as (k & u & -> & Hk & Hclose & Hfirst). simpl.
      exists (new_index ++ [k]). split; [by eapply welded_merge|].
      split; [rewrite !length_app; simpl; lia|].
      intros i j Hi. apply lookup_app_Some in Hi as [Hi|[Hge Hi]]; [by apply Hold|].
      apply list_lookup_singleton_Some in Hi as [Hi <-].
      replace i with (length vertices) by lia. by rewrite lookup_insert_eq.
    + simpl. exists (new_index ++ [length kept]).
      split; [apply welded_keep; [done|by eapply find_close_none]|].
      split; [rewrite !length_app; simpl; lia|].
      intros i j Hi. apply lookup_app_Some in Hi as [Hi|[Hge Hi]]; [by apply Hold|].
      apply list_lookup_singleton_Some in Hi as [Hi <-].
      replace i with (length vertices) by lia. by rewrite lookup_insert_eq.
Qed.

(** The second loop: with the dictionary of the first loop, every face
    whose indices lie in [0, N) is remapped, and no KeyError is raised. *)
Lemma remap_faces_ok (mapping : gmap Z Z) (new_index : list nat)
  (faces : list face) (new_faces : list face) :
  (forall i j, new_index !! i = Some j ->
               mapping !! Z.of_nat i = Some (Z.of_nat j)) ->
  Forall (face_canonical (length new_index)) faces ->
  for_each (fun new_faces f =>
              new_face ← MeshProcessor.remap_face mapping f;
              Ok (new_faces ++ [new_face])) faces new_faces
  = Ok (new_faces ++ map (remap new_index) faces).
Proof.
  intros Hdict Hall. revert new_faces.
  induction Hall as [|f faces Hf _ IH]; intros new_faces.
  - simpl. by rewrite app_nil_r.
  - assert (Hget : forall i, canonical_index (length new_index) i ->
              MeshProcessor.dict_get mapping i
              = Ok (Z.of_nat (new_index !!! Z.to_nat i))).
    { intros i [Hlo Hhi]. unfold MeshProcessor.dict_get.
      destruct (lookup_lt_is_Some_2 new_index (Z.to_nat i)) as [j Hj]; [lia|].
      rewrite (list_lookup_total_correct _ _ _ Hj).
      rewrite <- (Z2Nat.id i) at 1 by lia. by rewrite (Hdict _ _ Hj). }
    destruct f as [[i0 i1] i2]. destruct Hf as (H0 & H1 & H2).
    simpl. rewrite (Hget i0 H0), (Hget i1 H1), (Hget i2 H2). simpl.
    rewrite IH. by rewrite <- app_assoc.
Qed.

(** [_remove_duplicate_vertices] either ends normally, with the vertices its
    first loop kept, or returns its arguments. *)
Lemma remove_duplicate_vertices_cases (vertices : list (vec3 F)) (faces : list face) :
  fst (MeshProcessor._remove_duplicate_vertices vertices faces tolerance)
  = fst (weld_state tolerance vertices)
  \/ MeshProcessor._remove_duplicate_vertices vertices faces tolerance
     = (vertices, faces).
Proof.
  unfold MeshProcessor._remove_duplicate_vertices.
  fold (weld_state tolerance vertices).
  destruct (weld_state tolerance vertices) as [kept mapping].
  destruct (for_each _ faces []); [by left|by right].
Qed.

(** C4 (as amended): with every face index in [0, N), the vertices are
    welded under the closeness test of [np.allclose] (in each coordinate
    [|v - u| <= tolerance + 1e-05 * |u|]): a vertex close to an already kept
    vertex is sent to the first such one, any other vertex is kept
    unchanged, and every face index is replaced by its vertex's new index. *)
Theorem weld_vertices_amended (vertices : list (vec3 F)) (faces : list face) :
  Forall (face_canonical (length vertices)) faces ->
  exists new_index,
    welded tolerance vertices
      (fst (MeshProcessor._remove_duplicate_vertices vertices faces tolerance)) new_index
    /\ length new_index = length vertices
    /\ snd (MeshProcessor._remove_duplicate_vertices vertices faces tolerance)
       = map (remap new_index) faces.
Proof.
  intros Hall.
  destruct (weld_state_welded vertices) as (new_index & Hwelded & Hlen & Hdict).
  exists new_index. unfold MeshProcessor._remove_duplicate_vertices.
  fold (weld_state tolerance vertices).
  destruct (weld_state tolerance vertices) as [kept mapping]. simpl in *.
  rewrite (remap_faces_ok mapping new_index faces [] Hdict)
    by (by rewrite Hlen).
  done.
Qed.

Lemma welded_sparse (vertices kept : list (vec3 F)) (new_index : list nat) :
  welded tolerance vertices kept new_index -> sparse tolerance kept.
Proof.
  induction 1 as [|vertices kept new_index vertex j u _ IH _ _ _
                  |vertices kept new_index vertex _ IH Hfar]; [|done|].
  - intros i j u' u _ Hi. done.
  - intros i j u' u Hlt Hi Hj.
    apply lookup_app_Some in Hj as [Hj|[Hge Hj]].
    + apply (IH i j u' u Hlt); [|done].
      rewrite lookup_app_l in Hi; [done|]. apply lookup_lt_Some in Hj. lia.
    + apply list_lookup_singleton_Some in Hj as [Hj <-].
      apply Hfar. rewrite lookup_app_l in Hi by lia.
      by eapply list_elem_of_lookup_2.
Qed.

(** Welding a sparse list keeps all of it. *)
Lemma sparse_weld_state (kept : list (vec3 F)) :
  sparse tolerance kept -> fst (weld_state tolerance kept) = kept.
Proof.
  induction kept as [|u kept IH] using rev_ind; intros Hsparse; [done|].
  rewrite weld_state_snoc.
  assert (Hprefix : sparse tolerance kept).
  { intros i j u' u0 Hlt Hi Hj. apply (Hsparse i j u' u0 Hlt).
    - rewrite lookup_app_l; [done|]. by apply lookup_lt_Some in Hi.
    - rewrite lookup_app_l; [done|]. by apply lookup_lt_Some in Hj. }
  specialize (IH Hprefix).
  destruct (weld_state tolerance kept) as [kept' mapping]. simpl in IH. subst kept'.
  unfold MeshProcessor.weld_step.
  rewrite find_close_none_intro; [done|].
  intros u' Hu'. apply list_elem_of_lookup in Hu' as [i Hi].
  apply (Hsparse i (length kept) u' u).
  - by apply lookup_lt_Some in Hi.
  - rewrite lookup_app_l; [done|]. by apply lookup_lt_Some in Hi.
  - by rewrite list_lookup_middle.
Qed.

(** C8: welding the welded mesh again, with the same tolerance, leaves the
    number of vertices as it is: the second pass returns the very vertices
    the first one returned. *)
Theorem weld_twice_same_count (vertices : list (vec3 F)) (faces : list face) :
  let once := MeshProcessor._remove_duplicate_vertices vertices faces tolerance in
  let twice := MeshProcessor._remove_duplicate_vertices (fst once) (snd once) tolerance in
  length (fst twice) = length (fst once).
Proof.
  intros once twice.
  assert (Hsame : fst twice = fst once); [|by rewrite Hsame].
  subst twice.
  destruct (remove_duplicate_vertices_cases vertices faces) as [Hok|Hback];
    fold once in Hok || fold once in Hback.
  - (* the first pass ended normally: what it kept is sparse *)
    destruct (remove_duplicate_vertices_cases (fst once) (snd once)) as [Hok2|Hback2].
    + rewrite Hok2, Hok. apply sparse_weld_state.
      destruct (weld_state_welded vertices) as (new_index & Hwelded & _).
      by eapply welded_sparse.
    + by rewrite Hback2.
  - (* the first pass returned its arguments: so does the second *)
    rewrite Hback. simpl. fold once. by rewrite Hback.
Qed.

End Welding.

(** *** On binary64 *)

(** C4, witness: the third vertex repeats the first. *)
Lemma weld_vertices_amended_witness :
  Forall (face_canonical (length repeated_vertex)) [ (0, 1, 2) ]
  /\ exists new_index,
       welded MeshProcessor.default_tolerance repeated_vertex
         (fst (MeshProcessor._remove_duplicate_vertices repeated_vertex [ (0, 1, 2) ]
                 MeshProcessor.default_tolerance)) new_index
       /\ length new_index = length repeated_vertex
       /\ snd (MeshProcessor._remove_duplicate_vertices repeated_vertex [ (0, 1, 2) ]
                 MeshProcessor.default_tolerance)
          = map (remap new_index) [ (0, 1, 2) ].
Proof.
  assert (Hall : Forall (face_canonical (length repeated_vertex)) [ (0, 1, 2) ]).
  { repeat constructor; simpl; lia. }
  split; [exact Hall|].
  exact (weld_vertices_amended MeshProcessor.default_tolerance repeated_vertex
           [ (0, 1, 2) ] Hall).
Defined.

(** What the welding of that mesh is. *)
Lemma repeated_vertex_welded :
  MeshProcessor._remove_duplicate_vertices repeated_vertex [ (0, 1, 2) ]
    MeshProcessor.default_tolerance
  = ([ (of_Z 1, of_Z 0, of_Z 0); (of_Z 3, of_Z 0, of_Z 0) ], [ (0, 1, 0) ]).
Proof. vm_compute. reflexivity. Qed.

(** C4, counterexample: with the default tolerance 1e-6 the two vertices of
    [near_pair] are at distance 2^-7 from each other, more than the
    tolerance, and the second is merged into the first: the relative term
    of [np.allclose], 1e-05 * 1024, makes them close. *)
Lemma distant_vertices_merged :
  near_pair = [ near_first; near_second ]
  /\ fltb MeshProcessor.default_tolerance
          (np_linalg_norm (vsub near_second near_first)) = true
  /\ MeshProcessor._remove_duplicate_vertices near_pair [ (0, 1, 1) ]
       MeshProcessor.default_tolerance
     = ([ near_first ], [ (0, 0, 0) ]).
Proof. repeat split; vm_compute; reflexivity. Qed.

(** A face index outside [0, N) raises KeyError in the second loop, and the
    arguments come back unwelded. *)
Lemma weld_key_error_returns_arguments :
  MeshProcessor._remove_duplicate_vertices repeated_vertex [ (0, 1, 3) ]
    MeshProcessor.default_tolerance
  = (repeated_vertex, [ (0, 1, 3) ])
  /\ MeshProcessor._remove_duplicate_vertices repeated_vertex [ (0, 1, -1) ]
       MeshProcessor.default_tolerance
     = (repeated_vertex, [ (0, 1, -1) ]).
Proof. split; vm_compute; reflexivity. Qed.

(** * Further properties of the mesh functions *)

(** ** STL conversion *)

Lemma fold_left_snoc_map {A B : Type} (h : A -> B) (l : list A) (acc : list B) :
  fold_left (fun acc a => acc ++ [h a]) l acc = acc ++ map h l.
Proof.
  revert acc. induction l as [|a l IH]; intros acc; simpl.
  - by rewrite app_nil_r.
  - rewrite IH. by rewrite <- app_assoc.
Qed.

(** A loop that only indexes the vertices raises nothing but IndexError. *)
Lemma for_each_index_error {A S : Type} (a : list A) (k : S -> triple A -> result S)
  (g : S -> triple A -> S) (faces : list face) (s : S) :
  (forall s r, k s r = Ok (g s r)) ->
  Exists (fun f => ~ face_in_range (length a) f) faces ->
  for_each (fun s f => take_rows a f ≫= k s) faces s = Raise index_error.
Proof.
  intros Hk Hex. revert s. induction faces as [|f faces IH]; intros s.
  - inversion Hex.
  - simpl. destruct (decide (face_in_range (length a) f)) as [Hf|Hf].
    + destruct (take_rows_ok a f Hf) as [r ->]. simpl. rewrite Hk. simpl.
      apply IH. inversion Hex; subst; [contradiction|assumption].
    + by rewrite (take_rows_raise a f Hf).
Qed.

Lemma indexed_rows_lookup {A : Type} (a : list A) (faces : list face)
  (rows : list (triple A)) :
  indexed_rows a faces = Some rows ->
  length rows = length faces
  /\ forall i f, faces !! i = Some f ->
       exists r, take_rows a f = Ok r /\ rows !! i = Some r.
Proof.
  unfold indexed_rows. intros Hrows. apply mapM_Some in Hrows. split.
  - symmetry. by eapply Forall2_length.
  - intros i f Hi. destruct (Forall2_lookup_l _ _ _ _ _ Hrows Hi) as (r & Hr & Hf).
    exists r. split; [|done]. by destruct (take_rows a f) as [r'|e]; simplify_eq.
Qed.

Section Conversion.
Context {F : Type} `{Floating F}.

(** With every face in range the loop of [create_mesh_from_arrays] stores
    the float32 values of the indexed rows, face after face. *)
Lemma create_mesh_rows (vertices : list (vec3 F)) (faces : list face) :
  Forall (face_in_range (length vertices)) faces ->
  exists rows,
    indexed_rows vertices faces = Some rows
    /\ MeshProcessor.create_mesh_from_arrays vertices faces
       = Ok (map (fun '(v0, v1, v2) =>
                    (MeshProcessor.f32_row v0, MeshProcessor.f32_row v1,
                     MeshProcessor.f32_row v2)) rows).
Proof.
  intros Hall. unfold MeshProcessor.create_mesh_from_arrays.
  pose (h := fun r : triple (vec3 F) =>
               let '(v0, v1, v2) := r in
               (MeshProcessor.f32_row v0, MeshProcessor.f32_row v1, MeshProcessor.f32_row v2)).
  destruct (for_each_folds vertices
              (fun vectors r => let '(v0, v1, v2) := r in
                 Ok (vectors ++ [(MeshProcessor.f32_row v0, MeshProcessor.f32_row v1,
                                  MeshProcessor.f32_row v2)]))
              (fun vectors r => vectors ++ [h r])
              faces []) as (rows & Hrows & Hloop); [|assumption|].
  - by intros s [[v0 v1] v2].
  - exists rows. split; [done|]. by rewrite Hloop, fold_left_snoc_map.
Qed.

(** X1: with every face in range [create_mesh_from_arrays] returns one
    triangle per face, in order: the three rows the face indexes, stored as
    float32. *)
Theorem create_mesh_triangles (vertices : list (vec3 F)) (faces : list face) :
  Forall (face_in_range (length vertices)) faces ->
  exists vectors,
    MeshProcessor.create_mesh_from_arrays vertices faces = Ok vectors
    /\ length vectors = length faces
    /\ forall i f, faces !! i = Some f ->
         exists v0 v1 v2,
           take_rows vertices f = Ok (v0, v1, v2)
           /\ vectors !! i = Some (MeshProcessor.f32_row v0, MeshProcessor.f32_row v1,
                                   MeshProcessor.f32_row v2).
Proof.
  intros Hall. destruct (create_mesh_rows vertices faces Hall) as (rows & Hrows & Hmesh).
  destruct (indexed_rows_lookup vertices faces rows Hrows) as [Hlen Hlookup].
  eexists. split; [exact Hmesh|]. split; [by rewrite length_map|].
  intros i f Hi. destruct (Hlookup i f Hi) as ([[v0 v1] v2] & Hr & Hrow).
  exists v0, v1, v2. split; [done|]. by rewrite list_lookup_fmap, Hrow.
Qed.

(** X2: when some face holds an index numpy rejects,
    [create_mesh_from_arrays] raises an IndexError and returns no mesh. *)
Theorem create_mesh_index_error (vertices : list (vec3 F)) (faces : list face) :
  Exists (fun f => ~ face_in_range (length vertices) f) faces ->
  exists e,
    MeshProcessor.create_mesh_from_arrays vertices faces = Raise e
    /\ exn_class e = IndexError.
Proof.
  intros Hex. exists index_error. split; [|reflexivity].
  unfold MeshProcessor.create_mesh_from_arrays.
  apply (for_each_index_error vertices
           (fun vectors r => let '(v0, v1, v2) := r in
              Ok (vectors ++ [(MeshProcessor.f32_row v0, MeshProcessor.f32_row v1,
                               MeshProcessor.f32_row v2)]))
           (fun vectors r => let '(v0, v1, v2) := r in
              vectors ++ [(MeshProcessor.f32_row v0, MeshProcessor.f32_row v1,
                           MeshProcessor.f32_row v2)])); [|assumption].
  by intros s [[v0 v1] v2].
Qed.

End Conversion.

(** X1, witness: the twelve faces of the cube. *)
Lemma create_mesh_triangles_witness :
  exists vectors,
    MeshProcessor.create_mesh_from_arrays translated_cube cube_faces = Ok vectors
    /\ length vectors = length cube_faces
    /\ forall i f, cube_faces !! i = Some f ->
         exists v0 v1 v2,
           take_rows translated_cube f = Ok (v0, v1, v2)
           /\ vectors !! i = Some (MeshProcessor.f32_row v0, MeshProcessor.f32_row v1,
                                   MeshProcessor.f32_row v2).
Proof.
  apply (create_mesh_triangles translated_cube cube_faces).
  repeat constructor; simpl; lia.
Defined.

(** X2, witness: a face that names vertex 8 of the cube. *)
Lemma create_mesh_index_error_witness :
  exists e,
    MeshProcessor.create_mesh_from_arrays translated_cube [ (0, 1, 2); (0, 1, 8) ]
    = Raise e
    /\ exn_class e = IndexError.
Proof.
  apply (create_mesh_index_error translated_cube [ (0, 1, 2); (0, 1, 8) ]).
  apply Exists_cons_tl, Exists_cons_hd. unfold face_in_range, valid_index. simpl. lia.
Defined.

Section Trimesh.
Context {F : Type} `{Floating F}.

Lemma tuple_lookup_some (vertices : list (vec3 F)) (n : nat) (v : vec3 F) (i : nat) :
  MeshProcessor.tuple_lookup (zip vertices (seq n (length vertices))) v = Some i ->
  exists k u, i = (n + k)%nat /\ vertices !! k = Some u
    /\ MeshProcessor.same_tuple u v = true.
Proof.
  revert n. induction vertices as [|u vertices IH]; intros n Hlookup; [done|].
  simpl in Hlookup. destruct (MeshProcessor.same_tuple u v) eqn:E.
  - injection Hlookup as <-. exists 0%nat, u. split; [lia|]. by split.
  - destruct (IH (S n) Hlookup) as (k & u' & -> & Hk & Hsame).
    exists (S k), u'. split; [lia|]. by split.
Qed.

Lemma tuple_lookup_none (vertices : list (vec3 F)) (n : nat) (v : vec3 F) :
  MeshProcessor.tuple_lookup (zip vertices (seq n (length vertices))) v = None ->
  forall u, u ∈ vertices -> MeshProcessor.same_tuple u v = false.
Proof.
  revert n. induction vertices as [|u0 vertices IH]; intros n Hlookup u Hu.
  - by apply elem_of_nil in Hu.
  - simpl in Hlookup. destruct (MeshProcessor.same_tuple u0 v) eqn:E; [done|].
    apply elem_of_cons in Hu as [->|Hu]; [done|]. by apply (IH (S n)).
Qed.

Lemma stands_for_prefix (vertices vertices' : list (vec3 F)) (i : Z) (v : vec3 F) :
  vertices `prefix_of` vertices' -> stands_for vertices i v -> stands_for vertices' i v.
Proof.
  intros Hprefix (Hi & u & Hu & Hsame). split; [done|]. exists u. split; [|done].
  by eapply prefix_lookup_Some.
Qed.

Lemma add_corner_spec (b : @MeshProcessor.trimesh_builder F) (v : vec3 F) :
  builder_ok b -> distinct_tuples (MeshProcessor.tb_vertices b) ->
  let '(b', i) := MeshProcessor.add_corner b v in
  builder_ok b'
  /\ distinct_tuples (MeshProcessor.tb_vertices b')
  /\ MeshProcessor.tb_vertices b `prefix_of` MeshProcessor.tb_vertices b'
  /\ (length (MeshProcessor.tb_vertices b') <= length (MeshProcessor.tb_vertices b) + 1)%nat
  /\ stands_for (MeshProcessor.tb_vertices b') (Z.of_nat i) v.
Proof.
  intros [Hindex Hmap] Hdistinct. unfold MeshProcessor.add_corner.
  destruct b as [vertices vertex_map vertex_index]. simpl in *. subst.
  destruct (MeshProcessor.tuple_lookup _ v) as [index|] eqn:Hlookup; simpl.
  - destruct (tuple_lookup_some vertices 0 v index Hlookup) as (k & u & -> & Hk & Hsame).
    split; [done|]. split; [done|]. split; [done|]. split; [lia|].
    split; [lia|]. exists u. rewrite Nat2Z.id. simpl. split; [done|]. by right.
  - split; [|split; [|split; [|split]]].
    + split; simpl; [rewrite length_app; simpl; lia|].
      rewrite length_app. simpl. rewrite seq_app. simpl.
      rewrite zip_with_app by (by rewrite length_seq). done.
    + intros i j u u' Hlt Hi Hj.
      apply lookup_app_Some in Hj as [Hj|[Hge Hj]].
      * apply (Hdistinct i j u u' Hlt); [|done].
        rewrite lookup_app_l in Hi; [done|]. apply lookup_lt_Some in Hj. lia.
      * apply list_lookup_singleton_Some in Hj as [Hj <-].
        apply (tuple_lookup_none vertices 0 v Hlookup).
        rewrite lookup_app_l in Hi by lia. by eapply list_elem_of_lookup_2.
    + by apply prefix_app_r.
    + rewrite length_app. simpl. lia.
    + split; [lia|]. exists v. rewrite Nat2Z.id.
      rewrite list_lookup_middle by done. split; [done|]. by left.
Qed.

Lemma builder_after_spec (vectors : list (triple (vec3 F))) :
  let '(b, faces) := builder_after vectors in
  builder_ok b
  /\ distinct_tuples (MeshProcessor.tb_vertices b)
  /\ (length (MeshProcessor.tb_vertices b) <= 3 * length vectors)%nat
  /\ length faces = length vectors
  /\ forall i v0 v1 v2, vectors !! i = Some (v0, v1, v2) ->
       exists i0 i1 i2, faces !! i = Some (i0, i1, i2)
         /\ stands_for (MeshProcessor.tb_vertices b) i0 v0
         /\ stands_for (MeshProcessor.tb_vertices b) i1 v1
         /\ stands_for (MeshProcessor.tb_vertices b) i2 v2.
Proof.
  induction vectors as [|[[v0 v1] v2] vectors IH] using rev_ind.
  - simpl. split; [done|]. split; [by intros i j u u' _ Hi|]. split; [lia|].
    split; [done|]. by intros i v0 v1 v2 Hi.
  - unfold builder_after in *. rewrite fold_left_app. simpl.
    destruct (fold_left _ vectors _) as [b faces].
    destruct IH as (Hok & Hdistinct & Hlen & Hfaces & Hcorners).
    unfold MeshProcessor.add_triangle.
    pose proof (add_corner_spec b v0 Hok Hdistinct) as H0.
    destruct (MeshProcessor.add_corner b v0) as [b0 i0].
    destruct H0 as (Hok0 & Hdistinct0 & Hprefix0 & Hlen0 & Hstands0).
    pose proof (add_corner_spec b0 v1 Hok0 Hdistinct0) as H1.
    destruct (MeshProcessor.add_corner b0 v1) as [b1 i1].
    destruct H1 as (Hok1 & Hdistinct1 & Hprefix1 & Hlen1 & Hstands1).
    pose proof (add_corner_spec b1 v2 Hok1 Hdistinct1) as H2.
    destruct (MeshProcessor.add_corner b1 v2) as [b2 i2].
    destruct H2 as (Hok2 & Hdistinct2 & Hprefix2 & Hlen2 & Hstands2).
    split; [done|]. split; [done|].
    split; [rewrite length_app; simpl; lia|].
    split; [rewrite !length_app; simpl; lia|].
    intros i w0 w1 w2 Hi.
    apply lookup_app_Some in Hi as [Hi|[Hge Hi]].
    + destruct (Hcorners i w0 w1 w2 Hi) as (j0 & j1 & j2 & Hface & Hs0 & Hs1 & Hs2).
      exists j0, j1, j2. split; [by apply lookup_app_l_Some|].
      assert (Hprefix : MeshProcessor.tb_vertices b `prefix_of` MeshProcessor.tb_vertices b2).
      { by do 2 (etrans; [eassumption|]). }
      repeat split; by eapply stands_for_prefix.
    + apply list_lookup_singleton_Some in Hi as [Hi Heq]. injection Heq as <- <- <-.
      exists (Z.of_nat i0), (Z.of_nat i1), (Z.of_nat i2).
      split; [|split; [|split]].
      * replace i with (length faces) by lia. by rewrite list_lookup_middle.
      * eapply stands_for_prefix; [|exact Hstands0]. by etrans.
      * by eapply stands_for_prefix.
      * done.
Qed.

Lemma stl_to_trimesh_call (vectors : list (triple (vec3 F))) :
  hands_to_trimesh vectors (MeshProcessor.tb_vertices (fst (builder_after vectors)))
                   (snd (builder_after vectors)).
Proof.
  intros T Trimesh.
  unfold MeshProcessor._stl_to_trimesh, MeshProcessor.stl_vertices_faces, builder_after.
  by destruct (fold_left _ vectors _) as [b faces].
Qed.

(** X3: the two lists [_stl_to_trimesh] hands to [trimesh.Trimesh] hold one
    face per triangle, every index of a face names a vertex of the list,
    and there are at most three vertices per triangle. *)
Theorem stl_to_trimesh_indices (vectors : list (triple (vec3 F))) :
  exists vertices faces,
    hands_to_trimesh vectors vertices faces
    /\ length faces = length vectors
    /\ Forall (face_canonical (length vertices)) faces
    /\ (length vertices <= 3 * length vectors)%nat.
Proof.
  pose proof (stl_to_trimesh_call vectors) as Hcall.
  pose proof (builder_after_spec vectors) as Hspec.
  destruct (builder_after vectors) as [b faces]. simpl in Hcall.
  destruct Hspec as (_ & _ & Hlen & Hfaces & Hcorners).
  exists (MeshProcessor.tb_vertices b), faces.
  split; [done|]. split; [done|]. split; [|done].
  apply Forall_lookup. intros i [[i0 i1] i2] Hi.
  destruct (lookup_lt_is_Some_2 vectors i) as [[[v0 v1] v2] Hv];
    [apply lookup_lt_Some in Hi; lia|].
  destruct (Hcorners i v0 v1 v2 Hv) as (j0 & j1 & j2 & Hface & Hs0 & Hs1 & Hs2).
  rewrite Hi in Hface. injection Hface as <- <- <-.
  assert (Hcanon : forall j v, stands_for (MeshProcessor.tb_vertices b) j v ->
            canonical_index (length (MeshProcessor.tb_vertices b)) j).
  { intros j v (Hj & u & Hu & _). apply lookup_lt_Some in Hu.
    unfold canonical_index. lia. }
  repeat split; eapply Hcanon; eassumption.
Qed.

(** X4: the i-th face of the lists [_stl_to_trimesh] hands to
    [trimesh.Trimesh] indexes the corners of the i-th triangle: each index
    names the corner itself or an earlier vertex whose coordinates compare
    equal to the corner's. *)
Theorem stl_to_trimesh_corners (vectors : list (triple (vec3 F)))
  (i : nat) (v0 v1 v2 : vec3 F) :
  vectors !! i = Some (v0, v1, v2) ->
  exists vertices faces,
    hands_to_trimesh vectors vertices faces
    /\ exists i0 i1 i2, faces !! i = Some (i0, i1, i2)
         /\ stands_for vertices i0 v0 /\ stands_for vertices i1 v1
         /\ stands_for vertices i2 v2.
Proof.
  intros Hi. pose proof (stl_to_trimesh_call vectors) as Hcall.
  pose proof (builder_after_spec vectors) as Hspec.
  destruct (builder_after vectors) as [b faces]. simpl in Hcall.
  destruct Hspec as (_ & _ & _ & _ & Hcorners).
  exists (MeshProcessor.tb_vertices b), faces. split; [done|]. by apply Hcorners.
Qed.

(** X5: no two vertices of the list [_stl_to_trimesh] hands to
    [trimesh.Trimesh] compare equal as tuples: a corner equal to a stored
    vertex is never stored again. *)
Theorem stl_to_trimesh_distinct (vectors : list (triple (vec3 F))) :
  exists vertices faces,
    hands_to_trimesh vectors vertices faces /\ distinct_tuples vertices.
Proof.
  pose proof (stl_to_trimesh_call vectors) as Hcall.
  pose proof (builder_after_spec vectors) as Hspec.
  destruct (builder_after vectors) as [b faces]. simpl in Hcall.
  destruct Hspec as (_ & Hdistinct & _).
  by exists (MeshProcessor.tb_vertices b), faces.
Qed.

End Trimesh.

(** X4, witness: the second triangle of two that share an edge. *)
Lemma stl_to_trimesh_corners_witness :
  exists vertices faces,
    hands_to_trimesh two_triangles vertices faces
    /\ exists i0 i1 i2, faces !! 1%nat = Some (i0, i1, i2)
         /\ stands_for vertices i0 (of_Z 1, of_Z 0, of_Z 0)
         /\ stands_for vertices i1 (of_Z 1, of_Z 1, of_Z 0)
         /\ stands_for vertices i2 (of_Z 0, of_Z 1, of_Z 0).
Proof.
  exact (stl_to_trimesh_corners two_triangles 1
           (of_Z 1, of_Z 0, of_Z 0) (of_Z 1, of_Z 1, of_Z 0) (of_Z 0, of_Z 1, of_Z 0)
           eq_refl).
Defined.

(** ** Repair *)

Lemma filter_sublist {A : Type} (p : A -> bool) (l : list A) :
  List.filter p l `sublist_of` l.
Proof.
  induction l as [|a l IH]; simpl; [constructor|].
  destruct (p a); by constructor.
Qed.

Lemma filter_nil_Forall {A : Type} (p : A -> bool) (l : list A) :
  List.filter p l = [] -> Forall (fun a => p a = false) l.
Proof.
  induction l as [|a l IH]; simpl; intros Hnil; [constructor|].
  destruct (p a) eqn:E; [done|]. constructor; [done|by apply IH].
Qed.

Lemma filter_Forall {A : Type} (p : A -> bool) (l : list A) :
  Forall (fun a => p a = true) (List.filter p l).
Proof.
  induction l as [|a l IH]; simpl; [constructor|].
  destruct (p a) eqn:E; [by constructor|done].
Qed.

Section Repair.
Context {F : Type} `{Floating F}.
Variable tolerance : F.

Lemma welded_sublist (vertices kept : list (vec3 F)) (new_index : list nat) :
  welded tolerance vertices kept new_index -> kept `sublist_of` vertices.
Proof.
  induction 1 as [|vertices kept new_index vertex j u _ IH _ _ _
                  |vertices kept new_index vertex _ IH _].
  - constructor.
  - by apply sublist_inserts_r.
  - by apply sublist_app.
Qed.

Lemma welded_bound (vertices kept : list (vec3 F)) (new_index : list nat) :
  welded tolerance vertices kept new_index ->
  Forall (fun j => (j < length kept)%nat) new_index.
Proof.
  induction 1 as [|vertices kept new_index vertex j u _ IH Hj _ _
                  |vertices kept new_index vertex _ IH _].
  - constructor.
  - apply Forall_app. split; [done|]. constructor; [|constructor].
    by apply lookup_lt_Some in Hj.
  - apply Forall_app. split.
    + eapply Forall_impl; [exact IH|]. intros j Hj. rewrite length_app. simpl in *. lia.
    + constructor; [|constructor]. rewrite length_app. simpl. lia.
Qed.

(** The dictionary of the first loop has the keys 0, ..., N - 1 and no
    other. *)
Lemma weld_state_keys (vertices : list (vec3 F)) (i : Z) :
  ~ canonical_index (length vertices) i ->
  snd (weld_state tolerance vertices) !! i = None.
Proof.
  induction vertices as [|vertex vertices IH] using rev_ind; intros Hi; [done|].
  rewrite weld_state_snoc. rewrite length_app in Hi. simpl in Hi.
  unfold canonical_index in *.
  destruct (weld_state tolerance vertices) as [kept mapping]. simpl in *.
  destruct (MeshProcessor.find_close vertex kept tolerance 0); simpl;
    (rewrite lookup_insert_ne by lia; apply IH; lia).
Qed.

Lemma remap_face_key_error (mapping : gmap Z Z) (n : nat) (f : face) :
  (forall i, ~ canonical_index n i -> mapping !! i = None) ->
  ~ face_canonical n f ->
  exists e, MeshProcessor.remap_face mapping f = Raise e /\ exn_class e = KeyError.
Proof.
  intros Hkeys Hf. destruct f as [[i0 i1] i2]. unfold MeshProcessor.remap_face.
  assert (Hget : forall i, ~ canonical_index n i ->
            exists e, MeshProcessor.dict_get mapping i = Raise e /\ exn_class e = KeyError).
  { intros i Hi. unfold MeshProcessor.dict_get. rewrite (Hkeys i Hi). by eexists. }
  destruct (decide (canonical_index n i0)) as [H0|H0];
    [|destruct (Hget i0 H0) as (e & -> & He); by exists e].
  destruct (MeshProcessor.dict_get mapping i0) as [j0|e0] eqn:E0;
    [|unfold MeshProcessor.dict_get in E0; destruct (mapping !! i0); simplify_eq;
      by eexists].
  destruct (decide (canonical_index n i1)) as [H1|H1];
    [|destruct (Hget i1 H1) as (e & -> & He); by exists e].
  destruct (MeshProcessor.dict_get mapping i1) as [j1|e1] eqn:E1;
    [|unfold MeshProcessor.dict_get in E1; destruct (mapping !! i1); simplify_eq;
      by eexists].
  destruct (decide (canonical_index n i2)) as [H2|H2];
    [|destruct (Hget i2 H2) as (e & -> & He); by exists e].
  exfalso. apply Hf. exact (conj H0 (conj H1 H2)).
Qed.

Lemma remap_faces_key_error (mapping : gmap Z Z) (n : nat)
  (faces : list face) (new_faces : list face) :
  (forall i, ~ canonical_index n i -> mapping !! i = None) ->
  Exists (fun f => ~ face_canonical n f) faces ->
  exists e,
    for_each (fun new_faces f =>
                new_face ← MeshProcessor.remap_face mapping f;
                Ok (new_faces ++ [new_face])) faces new_faces
    = Raise e.
Proof.
  intros Hkeys Hex. revert new_faces.
  induction faces as [|f faces IH]; intros new_faces; [inversion Hex|].
  simpl. destruct (MeshProcessor.remap_face mapping f) as [new_face|e] eqn:E; simpl.
  - apply IH. inversion Hex as [? ? Hf|]; subst; [|done].
    destruct (remap_face_key_error mapping n f Hkeys Hf) as (e & He & _). congruence.
  - by exists e.
Qed.

Lemma remap_faces_length (mapping : gmap Z Z) (faces new_faces result : list face) :
  for_each (fun new_faces f =>
              new_face ← MeshProcessor.remap_face mapping f;
              Ok (new_faces ++ [new_face])) faces new_faces
  = Ok result ->
  length result = (length new_faces + length faces)%nat.
Proof.
  revert new_faces. induction faces as [|f faces IH]; intros new_faces Hloop.
  - simpl in Hloop. injection Hloop as <-. simpl. lia.
  - simpl in Hloop. destruct (MeshProcessor.remap_face mapping f) as [new_face|e];
      simpl in Hloop; [|done].
    rewrite (IH _ Hloop), length_app. simpl. lia.
Qed.

(** With every face index in [0, N) the second loop ends normally: the
    result holds the kept vertices and the remapped faces. *)
Lemma weld_outcome (vertices : list (vec3 F)) (faces : list face) :
  Forall (face_canonical (length vertices)) faces ->
  exists kept new_index,
    welded tolerance vertices kept new_index
    /\ length new_index = length vertices
    /\ MeshProcessor._remove_duplicate_vertices vertices faces tolerance
       = (kept, map (remap new_index) faces).
Proof.
  intros Hall. unfold MeshProcessor._remove_duplicate_vertices.
  destruct (weld_state_welded tolerance vertices) as (new_index & Hwelded & Hlen & Hdict).
  fold (weld_state tolerance vertices).
  destruct (weld_state tolerance vertices) as [kept mapping]. simpl in *.
  exists kept, new_index. split; [done|]. split; [done|].
  by rewrite (remap_faces_ok mapping new_index faces [] Hdict) by (by rewrite Hlen).
Qed.

(** Remapped faces name kept vertices. *)
Lemma remap_canonical (vertices kept : list (vec3 F)) (new_index : list nat)
  (faces : list face) :
  welded tolerance vertices kept new_index ->
  length new_index = length vertices ->
  Forall (face_canonical (length vertices)) faces ->
  Forall (face_canonical (length kept)) (map (remap new_index) faces).
Proof.
  intros Hwelded Hlen Hall. apply welded_bound in Hwelded.
  assert (Hindex : forall i, canonical_index (length vertices) i ->
            canonical_index (length kept) (Z.of_nat (new_index !!! Z.to_nat i))).
  { intros i [Hlo Hhi].
    destruct (lookup_lt_is_Some_2 new_index (Z.to_nat i)) as [j Hj]; [lia|].
    rewrite (list_lookup_total_correct _ _ _ Hj).
    pose proof (proj1 (Forall_lookup _ _) Hwelded _ _ Hj) as Hlt. simpl in Hlt.
    unfold canonical_index. lia. }
  apply Forall_fmap. eapply Forall_impl; [exact Hall|].
  intros [[i0 i1] i2] (H0 & H1 & H2). simpl. repeat split; by apply Hindex.
Qed.

(** X6: whatever the faces, [_remove_duplicate_vertices] returns a
    subsequence of the vertices, in their order, and as many faces as it was
    given. *)
Theorem weld_returns_subsequence (vertices : list (vec3 F)) (faces : list face) :
  let '(unique_vertices, new_faces) :=
    MeshProcessor._remove_duplicate_vertices vertices faces tolerance in
  unique_vertices `sublist_of` vertices
  /\ (length unique_vertices <= length vertices)%nat
  /\ length new_faces = length faces.
Proof.
  unfold MeshProcessor._remove_duplicate_vertices.
  destruct (weld_state_welded tolerance vertices) as (new_index & Hwelded & _).
  fold (weld_state tolerance vertices).
  destruct (weld_state tolerance vertices) as [kept mapping]. simpl in Hwelded.
  apply welded_sublist in Hwelded.
  destruct (for_each _ faces []) as [new_faces|e] eqn:Hloop.
  - split; [done|]. split; [by apply sublist_length|].
    by rewrite (remap_faces_length _ _ _ _ Hloop).
  - split; [done|]. split; [lia|done].
Qed.

(** X7: when every face index lies in [0, N), every index of the faces
    [_remove_duplicate_vertices] returns names one of the vertices it
    returns. *)
Theorem weld_indices_in_range (vertices : list (vec3 F)) (faces : list face) :
  Forall (face_canonical (length vertices)) faces ->
  let '(unique_vertices, new_faces) :=
    MeshProcessor._remove_duplicate_vertices vertices faces tolerance in
  Forall (face_canonical (length unique_vertices)) new_faces.
Proof.
  intros Hall.
  destruct (weld_outcome vertices faces Hall) as (kept & new_index & Hwelded & Hlen & ->).
  by eapply remap_canonical.
Qed.

(** X8: when some face holds an index outside [0, N), negative ones
    included, the lookup in the second loop raises KeyError and
    [_remove_duplicate_vertices] returns its arguments unchanged: nothing is
    welded. *)
Theorem weld_stray_index_returns_arguments (vertices : list (vec3 F))
  (faces : list face) :
  Exists (fun f => ~ face_canonical (length vertices) f) faces ->
  MeshProcessor._remove_duplicate_vertices vertices faces tolerance = (vertices, faces).
Proof.
  intros Hex. unfold MeshProcessor._remove_duplicate_vertices.
  pose proof (weld_state_keys vertices) as Hkeys.
  fold (weld_state tolerance vertices).
  destruct (weld_state tolerance vertices) as [kept mapping]. simpl in Hkeys.
  destruct (remap_faces_key_error mapping (length vertices) faces [] Hkeys Hex)
    as (e & ->).
  done.
Qed.

End Repair.

Section RepairMesh.
Context {F : Type} `{Floating F}.

(** X9: [_remove_degenerate_faces] returns a subsequence of the faces, never
    an empty one for a mesh that has faces: either every face it returns
    passed the test, or every face failed it and all of them come back. *)
Theorem remove_degenerate_faces_subsequence (vertices : list (vec3 F))
  (faces : list face) :
  let valid_faces := MeshProcessor._remove_degenerate_faces vertices faces in
  valid_faces `sublist_of` faces
  /\ (faces <> [] -> valid_faces <> [])
  /\ (Forall (fun f => degenerate vertices f = false) valid_faces
      \/ (valid_faces = faces /\ Forall (fun f => degenerate vertices f = true) faces)).
Proof.
  simpl. rewrite remove_degenerate_faces_filter.
  pose proof (filter_sublist (fun f => negb (degenerate vertices f)) faces) as Hsub.
  pose proof (filter_Forall (fun f => negb (degenerate vertices f)) faces) as Hkept.
  pose proof (filter_nil_Forall (fun f => negb (degenerate vertices f)) faces) as Hnone.
  destruct (List.filter _ faces) as [|f kept].
  - split; [done|]. split; [done|]. right. split; [done|].
    eapply Forall_impl; [by apply Hnone|]. intros f Hf. simpl in Hf.
    by apply negb_false_iff in Hf.
  - split; [done|]. split; [done|]. left.
    eapply Forall_impl; [exact Hkept|]. intros f' Hf'. simpl in Hf'.
    by apply negb_true_iff in Hf'.
Qed.

(** X10: on a mesh whose face indices lie in [0, N), [repair_mesh] returns
    a subsequence of the vertices, no more faces than it was given, and
    faces whose indices all name returned vertices. *)
Theorem repair_mesh_indices_in_range (vertices : list (vec3 F)) (faces : list face) :
  Forall (face_canonical (length vertices)) faces ->
  let '(vertices', faces') := MeshProcessor.repair_mesh vertices faces in
  vertices' `sublist_of` vertices
  /\ (length faces' <= length faces)%nat
  /\ Forall (face_canonical (length vertices')) faces'.
Proof.
  intros Hall. unfold MeshProcessor.repair_mesh.
  destruct (weld_outcome MeshProcessor.default_tolerance vertices faces Hall)
    as (kept & new_index & Hwelded & Hlen & ->).
  pose proof (remap_canonical _ _ _ _ _ Hwelded Hlen Hall) as Hrange.
  assert (Hfaces : MeshProcessor._remove_degenerate_faces kept
                     (map (remap new_index) faces)
                   `sublist_of` map (remap new_index) faces).
  { rewrite remove_degenerate_faces_filter.
    pose proof (filter_sublist (fun f => negb (degenerate kept f))
                  (map (remap new_index) faces)) as Hsub.
    by destruct (List.filter _ _). }
  split; [by eapply welded_sublist|]. split.
  - rewrite <- (length_map (remap new_index) faces). by apply sublist_length.
  - eapply Forall_forall. intros f Hf.
    apply (proj1 (Forall_forall _ _) Hrange). by eapply elem_of_sublist.
Qed.

End RepairMesh.

(** X7, witness: the mesh whose third vertex repeats the first. *)
Lemma weld_indices_in_range_witness :
  let '(unique_vertices, new_faces) :=
    MeshProcessor._remove_duplicate_vertices repeated_vertex [ (0, 1, 2) ]
      MeshProcessor.default_tolerance in
  Forall (face_canonical (length unique_vertices)) new_faces.
Proof.
  apply (weld_indices_in_range MeshProcessor.default_tolerance repeated_vertex
           [ (0, 1, 2) ]).
  repeat constructor; simpl; lia.
Defined.

(** X8, witness: the index -1, which numpy would accept, is no key of the
    dictionary. *)
Lemma weld_stray_index_returns_arguments_witness :
  MeshProcessor._remove_duplicate_vertices repeated_vertex [ (0, 1, 2); (0, 1, -1) ]
    MeshProcessor.default_tolerance
  = (repeated_vertex, [ (0, 1, 2); (0, 1, -1) ]).
Proof.
  apply (weld_stray_index_returns_arguments MeshProcessor.default_tolerance
           repeated_vertex [ (0, 1, 2); (0, 1, -1) ]).
  apply Exists_cons_tl, Exists_cons_hd. unfold face_canonical, canonical_index. lia.
Defined.

(** X10, witness *)
Lemma repair_mesh_indices_in_range_witness :
  let '(vertices', faces') :=
    MeshProcessor.repair_mesh repeated_vertex [ (0, 1, 2); (1, 2, 0) ] in
  vertices' `sublist_of` repeated_vertex
  /\ (length faces' <= 2)%nat
  /\ Forall (face_canonical (length vertices')) faces'.
Proof.
  apply (repair_mesh_indices_in_range repeated_vertex [ (0, 1, 2); (1, 2, 0) ]).
  repeat constructor; simpl; lia.
Defined.

(** ** Validation verdict *)

Lemma existsb_false_Forall {A : Type} (p : A -> bool) (l : list A) :
  existsb p l = false <-> Forall (fun a => p a = false) l.
Proof.
  induction l as [|a l IH]; simpl.
  - split; [constructor|done].
  - rewrite orb_false_iff, IH. split.
    + intros [Ha Hl]. by constructor.
    + intros Hall. inversion Hall; by subst.
Qed.

Lemma rows3_length {A : Type} (n : nat) (d : list A) :
  length d = (3 * n)%nat -> length (rows3 d) = n.
Proof.
  revert d. induction n as [|n IH]; intros d Hd.
  - by destruct d.
  - destruct d as [|a [|b [|c d]]]; simpl in Hd; try lia.
    simpl. f_equal. apply IH. lia.
Qed.

Lemma rows3_canonical (n : nat) (d : list Z) :
  Forall (canonical_index n) d -> Forall (face_canonical n) (rows3 d).
Proof.
  revert d. fix IH 1. intros [|a [|b [|c d]]] Hall; simpl; try constructor.
  - inversion Hall as [|? ? Ha Hall1]; subst.
    inversion Hall1 as [|? ? Hb Hall2]; subst.
    inversion Hall2 as [|? ? Hc Hall3]; subst. done.
  - apply IH. inversion Hall as [|? ? Ha Hall1]; subst.
    inversion Hall1 as [|? ? Hb Hall2]; subst.
    by inversion Hall2.
Qed.

Lemma face_canonical_in_range (n : nat) (f : face) :
  face_canonical n f -> face_in_range n f.
Proof.
  destruct f as [[i0 i1] i2]. unfold face_canonical, face_in_range, canonical_index,
    valid_index. lia.
Qed.

Section Verdict.
Context {F : Type} `{Floating F}.

(** The structural tests accept arrays of shape (N,3) and (M,3) exactly when
    neither is empty and every face index lies in [0, N). *)
Lemma structural_checks_valid (vertices : ndarray F) (faces : ndarray Z) (N M : nat) :
  shape vertices = [N; 3%nat] ->
  shape faces = [M; 3%nat] ->
  MeshProcessor.is_valid (MeshProcessor.structural_checks vertices faces) = true
  <-> (0 < N)%nat /\ (0 < M)%nat /\ Forall (canonical_index N) (data faces).
Proof.
  intros Hv Hf.
  assert (HN : len vertices = N) by (unfold len; by rewrite Hv).
  assert (HM : len faces = M) by (unfold len; by rewrite Hf).
  unfold MeshProcessor.structural_checks, ndim. rewrite Hv, Hf, HN, HM. simpl.
  assert (Hindices : Forall (canonical_index N) (data faces)
            <-> existsb (fun i => Z.of_nat N - 1 <? i) (data faces) = false
                /\ existsb (fun i => i <? 0) (data faces) = false).
  { rewrite !existsb_false_Forall, <- Forall_and. apply Forall_iff. intros i.
    unfold canonical_index. rewrite !Z.ltb_ge. lia. }
  rewrite Hindices.
  destruct (Nat.eqb_spec N 0), (Nat.eqb_spec M 0),
    (existsb (fun i => Z.of_nat N - 1 <? i) (data faces)),
    (existsb (fun i => i <? 0) (data faces)); simpl;
    (split; [try done; intros _; repeat split; (done || lia)
            |intros (? & ? & ? & ?); (done || lia)]).
Qed.

(** The verdict is [True] exactly when the list of errors is empty. *)
Lemma structural_checks_errors (vertices : ndarray F) (faces : ndarray Z) :
  MeshProcessor.is_valid (MeshProcessor.structural_checks vertices faces) = true
  <-> MeshProcessor.errors (MeshProcessor.structural_checks vertices faces) = [].
Proof.
  unfold MeshProcessor.structural_checks.
  repeat match goal with
         | |- context [if ?c then MeshProcessor.add_error _ _ else _] =>
             destruct c
         end; simpl; (split; [try done|]);
    intros Herr; try done; by repeat (apply app_eq_nil in Herr as [Herr ?]).
Qed.

Variable Trimesh : list (vec3 F) -> list face -> result MeshProcessor.trimesh_mesh.

(** X11: on arrays of shape (N,3) and (M,3) [validate_mesh] answers
    [is_valid = True] exactly when there is a vertex, there is a face and
    every face index lies in [0, N); and exactly then the list of errors is
    empty.  What the topology library answers has no part in the verdict. *)
Theorem validate_mesh_verdict (vertices : ndarray F) (faces : ndarray Z) (N M : nat) :
  shape vertices = [N; 3%nat] ->
  shape faces = [M; 3%nat] ->
  exists report,
    MeshProcessor.validate_mesh Trimesh vertices faces = Some report
    /\ (MeshProcessor.is_valid report = true
        <-> (0 < N)%nat /\ (0 < M)%nat /\ Forall (canonical_index N) (data faces))
    /\ (MeshProcessor.is_valid report = true <-> MeshProcessor.errors report = []).
Proof.
  intros Hv Hf.
  destruct (validate_mesh_report Trimesh vertices faces N M Hv Hf)
    as (report & Hreport & Hvalid & Herrors & _).
  exists report. split; [done|]. rewrite Hvalid, Herrors.
  split; [by apply structural_checks_valid|apply structural_checks_errors].
Qed.

(** X12: a report with [is_valid = True] on arrays that hold 3N coordinates
    and the face indices carries the full sums: its surface area is the sum
    of the area terms of all faces and its volume the absolute value of the
    total of the signed terms; no face was skipped and no handler ran. *)
Theorem valid_report_statistics (vertices : ndarray F) (faces : ndarray Z)
  (N M : nat) (report : MeshProcessor.validation) :
  shape vertices = [N; 3%nat] ->
  length (data vertices) = (3 * N)%nat ->
  shape faces = [M; 3%nat] ->
  MeshProcessor.validate_mesh Trimesh vertices faces = Some report ->
  MeshProcessor.is_valid report = true ->
  exists rows,
    indexed_rows (rows3 (data vertices)) (rows3 (data faces)) = Some rows
    /\ MeshProcessor.stats report !! "surface_area" = Some (VFloat (sum_areas rows))
    /\ MeshProcessor.stats report !! "volume"
       = Some (VFloat (fabs (sum_signed_volumes rows))).
Proof.
  intros Hv Hdata Hf Hreport Hvalid.
  destruct (validate_mesh_report Trimesh vertices faces N M Hv Hf)
    as (report' & Hreport' & Hvalid' & _ & _ & _ & _ & Harea & Hvolume).
  rewrite Hreport in Hreport'. injection Hreport' as <-.
  rewrite Hvalid' in Hvalid.
  apply (structural_checks_valid vertices faces N M Hv Hf) in Hvalid
    as (_ & _ & Hindices).
  assert (Hall : Forall (face_in_range (length (rows3 (data vertices))))
                        (rows3 (data faces))).
  { rewrite (rows3_length N) by done.
    eapply Forall_impl; [by apply rows3_canonical|]. apply face_canonical_in_range. }
  destruct (surface_area_in_range _ _ Hall) as (rows & Hrows & Hsum).
  destruct (mesh_volume_in_range _ _ Hall) as (rows' & Hrows' & Hsum').
  rewrite Hrows in Hrows'. injection Hrows' as <-.
  exists rows. split; [done|]. by rewrite Harea, Hvolume, Hsum, Hsum'.
Qed.

End Verdict.

(** X11, witness: the cube with a face that names vertex 100. *)
Lemma validate_mesh_verdict_witness :
  exists report,
    MeshProcessor.validate_mesh no_trimesh cube_vertices stray_face = Some report
    /\ (MeshProcessor.is_valid report = true
        <-> (0 < 8)%nat /\ (0 < 1)%nat /\ Forall (canonical_index 8) (data stray_face))
    /\ (MeshProcessor.is_valid report = true <-> MeshProcessor.errors report = []).
Proof.
  apply (validate_mesh_verdict no_trimesh cube_vertices stray_face 8 1); reflexivity.
Defined.

(** X12, witness: the cube of edge 2. *)
Lemma valid_report_statistics_witness :
  exists report rows,
    MeshProcessor.validate_mesh no_trimesh cube_vertices cube_indices = Some report
    /\ indexed_rows (rows3 (data cube_vertices)) (rows3 (data cube_indices)) = Some rows
    /\ MeshProcessor.stats report !! "surface_area" = Some (VFloat (sum_areas rows))
    /\ MeshProcessor.stats report !! "volume"
       = Some (VFloat (fabs (sum_signed_volumes rows))).
Proof.
  destruct (MeshProcessor.validate_mesh no_trimesh cube_vertices cube_indices)
    as [report|] eqn:E; [|vm_compute in E; discriminate].
  assert (Hvalid : MeshProcessor.is_valid report = true).
  { vm_compute in E. injection E as <-. reflexivity. }
  destruct (valid_report_statistics no_trimesh cube_vertices cube_indices 8 12 report
              eq_refl eq_refl eq_refl E Hvalid) as (rows & Hrows & Harea & Hvolume).
  by exists report, rows.
Defined.

(** * Prompts *)

Lemma isspace_lower_char (c : ascii) :
  Str.isspace (Str.lower_char c) = Str.isspace c.
Proof. destruct c as [[] [] [] [] [] [] [] []]; reflexivity. Qed.

Lemma lower_char_idempotent (c : ascii) :
  Str.lower_char (Str.lower_char c) = Str.lower_char c.
Proof. destruct c as [[] [] [] [] [] [] [] []]; reflexivity. Qed.

Lemma lower_idempotent (s : string) : Str.lower (Str.lower s) = Str.lower s.
Proof. induction s as [|c s IH]; simpl; [done|]. by rewrite lower_char_idempotent, IH. Qed.

Lemma lower_app (s t : string) : Str.lower (s +:+ t) = Str.lower s +:+ Str.lower t.
Proof. induction s as [|c s IH]; simpl; [done|]. by rewrite IH. Qed.

Lemma lower_empty (s : string) : Str.lower s = EmptyString <-> s = EmptyString.
Proof. by destruct s. Qed.

Lemma lower_join (sep : string) (words : list string) :
  Str.lower (Str.join sep words) = Str.join (Str.lower sep) (map Str.lower words).
Proof.
  induction words as [|w [|w' words] IH]; [done|done|].
  change (Str.join sep (w :: w' :: words)) with (w +:+ sep +:+ Str.join sep (w' :: words)).
  rewrite !lower_app, IH. done.
Qed.

Lemma nospace_lower (w : string) : nospace (Str.lower w) = nospace w.
Proof.
  induction w as [|c w IH]; simpl; [done|]. by rewrite isspace_lower_char, IH.
Qed.

Lemma is_word_lower (w : string) : is_word w -> is_word (Str.lower w).
Proof.
  intros [Hne Hns]. split; [by rewrite lower_empty|by rewrite nospace_lower].
Qed.

Lemma nospace_app (s t : string) : nospace (s +:+ t) = nospace s && nospace t.
Proof.
  induction s as [|c s IH]; simpl; [done|]. rewrite IH. by rewrite andb_assoc.
Qed.

Lemma append_cons (c : ascii) (s t : string) : String c s +:+ t = String c (s +:+ t).
Proof. reflexivity. Qed.

Lemma append_nonempty (s : string) (c : ascii) : s +:+ String c EmptyString <> EmptyString.
Proof. by destruct s. Qed.

Lemma append_assoc (s t u : string) : (s +:+ t) +:+ u = s +:+ t +:+ u.
Proof. induction s as [|c s IH]; [done|]. by rewrite !append_cons, IH. Qed.

Lemma append_empty_r (s : string) : s +:+ EmptyString = s.
Proof. induction s as [|c s IH]; [done|]. by rewrite append_cons, IH. Qed.

(** [split] reads a lowercased string as it reads the string. *)
Lemma split_from_lower (s word : string) :
  Str.split_from (Str.lower s) (Str.lower word)
  = map Str.lower (Str.split_from s word).
Proof.
  revert word. induction s as [|c s IH]; intros word; simpl.
  - by destruct word.
  - rewrite isspace_lower_char. destruct (Str.isspace c).
    + destruct word; simpl; [apply (IH EmptyString)|]. f_equal. apply (IH EmptyString).
    + rewrite <- IH. by rewrite lower_app.
Qed.

Lemma split_lstrip (s : string) : Str.split (Str.lstrip s) = Str.split s.
Proof.
  unfold Str.split. induction s as [|c s IH]; simpl; [done|].
  destruct (Str.isspace c) eqn:E; [done|]. simpl. by rewrite E.
Qed.

Lemma rstrip_empty (s word : string) :
  Str.rstrip s = EmptyString ->
  Str.split_from s word = match word with EmptyString => [] | _ => [word] end.
Proof.
  revert word. induction s as [|c s IH]; intros word Hs; simpl; [done|].
  simpl in Hs. destruct (Str.rstrip s) eqn:Hrest; [|done].
  destruct (Str.isspace c); [|done].
  rewrite (IH EmptyString) by done. by destruct word.
Qed.

Lemma split_from_rstrip (s word : string) :
  Str.split_from (Str.rstrip s) word = Str.split_from s word.
Proof.
  revert word. induction s as [|c s IH]; intros word; [done|].
  simpl. destruct (Str.rstrip s) as [|c' rest'] eqn:Hrest.
  - destruct (Str.isspace c) eqn:E; simpl.
    + rewrite (rstrip_empty s EmptyString Hrest). by destruct word.
    + rewrite E. rewrite (rstrip_empty s _ Hrest). simpl.
      by destruct (word +:+ String c EmptyString) eqn:Hw;
        [apply append_nonempty in Hw|].
  - simpl. destruct (Str.isspace c); by rewrite <- IH.
Qed.

Lemma split_strip (s : string) : Str.split (Str.strip s) = Str.split s.
Proof.
  unfold Str.strip, Str.split. rewrite split_from_rstrip. apply split_lstrip.
Qed.

(** [split] returns words. *)
Lemma split_from_words (s word : string) :
  nospace word = true -> Forall is_word (Str.split_from s word).
Proof.
  revert word. induction s as [|c s IH]; intros word Hword; simpl.
  - destruct word; [constructor|]. by repeat constructor.
  - destruct (Str.isspace c) eqn:E.
    + destruct word; [by apply IH|]. constructor; [done|by apply IH].
    + apply IH. rewrite nospace_app, Hword. simpl. by rewrite E.
Qed.

Lemma split_from_word (w s word : string) :
  nospace w = true ->
  Str.split_from (w +:+ s) word = Str.split_from s (word +:+ w).
Proof.
  revert word. induction w as [|c w IH]; intros word Hw; simpl.
  - by rewrite append_empty_r.
  - simpl in Hw. apply andb_true_iff in Hw as [Hc Hw].
    apply negb_true_iff in Hc. rewrite Hc, (IH _ Hw).
    by rewrite append_assoc.
Qed.

(** Splitting words joined by single spaces gives the words back. *)
Lemma split_join (words : list string) :
  Forall is_word words -> Str.split (Str.join " " words) = words.
Proof.
  unfold Str.split. induction 1 as [|w words [Hne Hns] Hall IH]; [done|].
  destruct words as [|w' words].
  - simpl. rewrite <- (append_empty_r w) at 1.
    rewrite (split_from_word w EmptyString EmptyString Hns). simpl. by destruct w.
  - change (Str.join " " (w :: w' :: words))
      with (w +:+ " " +:+ Str.join " " (w' :: words)).
    set (joined := Str.join " " (w' :: words)) in *.
    rewrite (split_from_word w _ EmptyString Hns).
    change (EmptyString +:+ w) with w.
    change (" " +:+ joined) with (String " "%char joined).
    simpl. destruct w; [done|]. by rewrite IH.
Qed.

Lemma clean_words (prompt : string) :
  BaseText3DModel.clean prompt = Str.join " " (map Str.lower (Str.split prompt)).
Proof.
  unfold BaseText3DModel.clean. f_equal.
  rewrite <- (split_strip prompt). apply (split_from_lower (Str.strip prompt) EmptyString).
Qed.

Lemma clean_idempotent (prompt : string) :
  BaseText3DModel.clean (BaseText3DModel.clean prompt) = BaseText3DModel.clean prompt.
Proof.
  rewrite (clean_words (BaseText3DModel.clean prompt)), (clean_words prompt).
  rewrite split_join.
  - rewrite map_map. f_equal. apply map_ext. intros w. apply lower_idempotent.
  - apply Forall_fmap. eapply Forall_impl; [by apply split_from_words|].
    apply is_word_lower.
Qed.

(** X13: the cleaned prompt of [preprocess_prompt] is the words of the
    prompt, lowercased and joined by single spaces: splitting it gives these
    words back, and the [strip] before [split] changes nothing. *)
Theorem clean_normal_form (prompt : string) :
  BaseText3DModel.clean prompt = Str.join " " (map Str.lower (Str.split prompt))
  /\ Str.split (BaseText3DModel.clean prompt) = map Str.lower (Str.split prompt)
  /\ Forall is_word (Str.split prompt).
Proof.
  split; [apply clean_words|]. split; [|by apply split_from_words].
  rewrite clean_words. apply split_join.
  apply Forall_fmap. eapply Forall_impl; [by apply split_from_words|].
  apply is_word_lower.
Qed.

(** X14: [preprocess_prompt] is idempotent: a prompt it returns is accepted
    and returned unchanged when it is preprocessed again. *)
Theorem preprocess_prompt_idempotent (prompt cleaned : string) :
  BaseText3DModel.preprocess_prompt prompt = Ok cleaned ->
  BaseText3DModel.preprocess_prompt cleaned = Ok cleaned.
Proof.
  unfold BaseText3DModel.preprocess_prompt. intros Hfirst.
  destruct (BaseText3DModel.content_filter _ (BaseText3DModel.clean prompt)) as [[]|e]
    eqn:Hfilter; simpl in Hfirst; [|done].
  injection Hfirst as <-. by rewrite clean_idempotent, Hfilter.
Qed.

(** X15: a prompt [preprocess_prompt] accepts is accepted by
    [PromptProcessor.clean_prompt] too, and the two results differ only in
    case: the first is the second lowercased. *)
Theorem clean_prompt_accepts (prompt cleaned : string) :
  BaseText3DModel.preprocess_prompt prompt = Ok cleaned ->
  exists cleaned',
    PromptProcessor.clean_prompt prompt = Ok cleaned'
    /\ Str.lower cleaned' = cleaned.
Proof.
  unfold BaseText3DModel.preprocess_prompt. intros Hfirst.
  destruct (BaseText3DModel.content_filter _ (BaseText3DModel.clean prompt)) as [[]|e]
    eqn:Hfilter; simpl in Hfirst; [|done].
  injection Hfirst as <-.
  assert (Hlower : Str.lower (Str.join " " (Str.split prompt))
                   = BaseText3DModel.clean prompt).
  { by rewrite lower_join, clean_words. }
  exists (Str.join " " (Str.split prompt)). split; [|done].
  unfold PromptProcessor.clean_prompt, PromptProcessor.inappropriate_words.
  unfold BaseText3DModel.banned_words in Hfilter. simpl in Hfilter.
  unfold PromptProcessor.content_filter. rewrite Hlower.
  change (Str.lower "explicit") with "explicit"%string.
  change (Str.lower "inappropriate") with "inappropriate"%string.
  destruct (Str.contains "explicit" (BaseText3DModel.clean prompt)); [done|].
  destruct (Str.contains "inappropriate" (BaseText3DModel.clean prompt)); done.
Qed.

(** X16: [PromptProcessor.clean_prompt] is idempotent: a prompt it returns
    is accepted and returned unchanged when it is cleaned again. *)
Theorem clean_prompt_idempotent (prompt cleaned : string) :
  PromptProcessor.clean_prompt prompt = Ok cleaned ->
  PromptProcessor.clean_prompt cleaned = Ok cleaned.
Proof.
  unfold PromptProcessor.clean_prompt. intros Hfirst.
  destruct (PromptProcessor.content_filter _ (Str.join " " (Str.split prompt)))
    as [[]|e] eqn:Hfilter; simpl in Hfirst; [|done].
  injection Hfirst as <-.
  rewrite split_join by (by apply split_from_words). by rewrite Hfilter.
Qed.

(** X14, witness *)
Lemma preprocess_prompt_idempotent_witness :
  BaseText3DModel.preprocess_prompt "a big sphere" = Ok "a big sphere"%string.
Proof.
  exact (preprocess_prompt_idempotent "  A Big   Sphere " "a big sphere" eq_refl).
Defined.

(** X15, witness *)
Lemma clean_prompt_accepts_witness :
  exists cleaned',
    PromptProcessor.clean_prompt "  A Big   Sphere " = Ok cleaned'
    /\ Str.lower cleaned' = "a big sphere"%string.
Proof.
  exact (clean_prompt_accepts "  A Big   Sphere " "a big sphere" eq_refl).
Defined.

(** X16, witness *)
Lemma clean_prompt_idempotent_witness :
  PromptProcessor.clean_prompt "A Big Sphere" = Ok "A Big Sphere"%string.
Proof.
  exact (clean_prompt_idempotent "  A Big   Sphere " "A Big Sphere" eq_refl).
Defined.

(** * The generation pipeline *)

Section Pipeline.
Context {F : Type} `{Floating F} `{Libm F}.

(** The four pairs (vertices, faces) of the demo generators. *)
Lemma create_counts (shape_type : string) (size : F) :
  exists N M,
    mesh_counts (DemoText3DModel.create shape_type size) N M
    /\ (N, M) ∈ [ (8, 12); (561, 1024); (34, 64); (5, 6) ]%nat.
Proof.
  unfold DemoText3DModel.create.
  destruct (String.eqb shape_type "sphere");
    [|destruct (String.eqb shape_type "cylinder");
      [|destruct (String.eqb shape_type "pyramid")]].
  - exists 561%nat, 1024%nat. split; [apply sphere_counts|].
    rewrite !elem_of_cons. tauto.
  - exists 34%nat, 64%nat. split; [apply cylinder_counts|].
    rewrite !elem_of_cons. tauto.
  - exists 5%nat, 6%nat. split; [apply pyramid_counts|].
    rewrite !elem_of_cons. tauto.
  - exists 8%nat, 12%nat. split; [apply cube_counts|].
    rewrite !elem_of_cons. tauto.
Qed.

Lemma table_positive (N M : nat) :
  (N, M) ∈ [ (8, 12); (561, 1024); (34, 64); (5, 6) ]%nat -> (0 < N)%nat /\ (0 < M)%nat.
Proof.
  rewrite !elem_of_cons, elem_of_nil.
  intros [Heq|[Heq|[Heq|[Heq|[]]]]]; injection Heq as -> ->; lia.
Qed.

(** [postprocess_geometry] on arrays of shape (N,3) and (M,3) with N, M > 0
    returns them, with their lengths in the metadata. *)
Lemma postprocess_counts (vertices : ndarray F) (faces : ndarray Z) (N M : nat) :
  mesh_counts (vertices, faces) N M -> (0 < N)%nat -> (0 < M)%nat ->
  exists metadata,
    BaseText3DModel.postprocess_geometry vertices faces
    = Ok (BaseText3DModel.mk_generated vertices faces metadata)
    /\ metadata !! "vertex_count" = Some (VInt (Z.of_nat N))
    /\ metadata !! "face_count" = Some (VInt (Z.of_nat M))
    /\ metadata !! "shape_type" = None
    /\ metadata !! "generation_method" = None.
Proof.
  intros (Hv & Hdata & Hf & _ & _) HN HM. simpl in *.
  unfold BaseText3DModel.postprocess_geometry, ndim, len, as_rows3.
  rewrite Hv, Hf. simpl.
  destruct N as [|n]; [lia|]. destruct M as [|m]; [lia|]. simpl.
  destruct (data vertices) as [|a [|b [|c rest]]]; simpl in Hdata; try lia.
  simpl. eexists. split; [reflexivity|]. repeat split; reflexivity.
Qed.

Lemma content_filter_cases (cleaned : string) (words : list string) :
  BaseText3DModel.content_filter words cleaned = Ok tt
  \/ exists word, word ∈ words /\ Str.contains word cleaned = true
       /\ BaseText3DModel.content_filter words cleaned
          = Raise (mk_exn ValueError ("Inappropriate content detected: " +:+ word)).
Proof.
  induction words as [|word words IH]; simpl; [by left|].
  destruct (Str.contains word cleaned) eqn:E.
  - right. exists word. split; [apply elem_of_cons; by left|done].
  - destruct IH as [IH|(w & Hw & Hc & IH)]; [by left|].
    right. exists w. split; [apply elem_of_cons; by right|done].
Qed.

(** Past the content filter the demo generator returns one of its four
    meshes, and the metadata tell its size. *)
Lemma generate_3d_counts (prompt : string) :
  BaseText3DModel.content_filter BaseText3DModel.banned_words
    (BaseText3DModel.clean prompt) = Ok tt ->
  exists result N M,
    DemoText3DModel.generate_3d prompt = Ok result
    /\ mesh_counts (BaseText3DModel.vertices result, BaseText3DModel.faces result) N M
    /\ (N, M) ∈ [ (8, 12); (561, 1024); (34, 64); (5, 6) ]%nat
    /\ BaseText3DModel.metadata result !! "vertex_count" = Some (VInt (Z.of_nat N))
    /\ BaseText3DModel.metadata result !! "face_count" = Some (VInt (Z.of_nat M))
    /\ BaseText3DModel.metadata result !! "generation_method" = Some (VStr "demo").
Proof.
  intros Hfilter.
  unfold DemoText3DModel.generate_3d, BaseText3DModel.preprocess_prompt.
  rewrite Hfilter. simpl.
  set (cleaned := BaseText3DModel.clean prompt).
  destruct (create_counts (DemoText3DModel._extract_shape_type cleaned)
              (DemoText3DModel._extract_size cleaned)) as (N & M & Hcounts & Htable).
  destruct (DemoText3DModel.create _ _) as [vertices faces].
  destruct (table_positive N M Htable) as [HN HM].
  destruct (postprocess_counts vertices faces N M Hcounts HN HM)
    as (metadata & -> & Hvc & Hfc & _). simpl.
  eexists _, N, M. split; [reflexivity|]. simpl. split; [done|]. split; [done|].
  rewrite !lookup_insert_ne by done. rewrite lookup_insert_eq. done.
Qed.

(** X23: when the cleaned prompt contains no banned word, [generate_3d]
    returns one of the four demo meshes: arrays of shape (N,3) and (M,3)
    with every face index in [0, N), for (N, M) among (8, 12), (561, 1024),
    (34, 64) and (5, 6); and the [vertex_count] and [face_count] of the
    metadata are N and M. *)
Theorem generated_mesh_metadata (prompt : string) :
  Forall (fun word => Str.contains word (BaseText3DModel.clean prompt) = false)
         BaseText3DModel.banned_words ->
  exists result N M,
    DemoText3DModel.generate_3d prompt = Ok result
    /\ mesh_counts (BaseText3DModel.vertices result, BaseText3DModel.faces result) N M
    /\ (N, M) ∈ [ (8, 12); (561, 1024); (34, 64); (5, 6) ]%nat
    /\ BaseText3DModel.metadata result !! "vertex_count" = Some (VInt (Z.of_nat N))
    /\ BaseText3DModel.metadata result !! "face_count" = Some (VInt (Z.of_nat M))
    /\ BaseText3DModel.metadata result !! "generation_method" = Some (VStr "demo").
Proof.
  intros Hclean. apply generate_3d_counts.
  destruct (content_filter_cases (BaseText3DModel.clean prompt)
              BaseText3DModel.banned_words) as [Hok|(word & Hword & Hfound & _)];
    [done|].
  rewrite Forall_forall in Hclean. rewrite (Hclean word Hword) in Hfound. done.
Qed.

(** X24: [DemoText3DModel.generate_3d] raises only for a banned word: the
    exception is the ValueError of [preprocess_prompt] that names a banned
    word the cleaned prompt contains.  No generator and no postprocessing
    step fails. *)
Theorem generation_fails_only_on_banned_words (prompt : string) (e : exn) :
  DemoText3DModel.generate_3d prompt = Raise e ->
  exists word,
    word ∈ BaseText3DModel.banned_words
    /\ Str.contains word (BaseText3DModel.clean prompt) = true
    /\ e = mk_exn ValueError ("Inappropriate content detected: " +:+ word).
Proof.
  intros Hraise.
  destruct (content_filter_cases (BaseText3DModel.clean prompt)
              BaseText3DModel.banned_words) as [Hok|(word & Hword & Hfound & Hfilter)].
  - destruct (generate_3d_counts prompt Hok) as (result & N & M & Hrun & _).
    rewrite Hrun in Hraise. done.
  - exists word. split; [done|]. split; [done|].
    unfold DemoText3DModel.generate_3d, BaseText3DModel.preprocess_prompt in Hraise.
    rewrite Hfilter in Hraise. simpl in Hraise. by injection Hraise as <-.
Qed.

(** X25: [ModelManager.generate_3d] on a registered model leaves the model
    under that name loaded; it returns what the model's [generate_3d]
    returns, with the same arrays and with the three entries [model_used],
    [prompt] (the prompt as given, not cleaned) and [generation_params] (the
    empty dict of a call without keyword arguments) written into the
    metadata, the other entries as they were; and it raises what the model
    raises. *)
Theorem manager_generate_3d (models : ModelManager.registry)
  (model_name : string) (model : ModelManager.model_object) (prompt : string) :
  ModelManager.get_model models model_name = Some model ->
  let '(outcome, models') := ModelManager.generate_3d models model_name prompt in
  models' !! model_name
  = Some (ModelManager.mk_model (ModelManager.model_name model)
            (ModelManager.model_path model) true (ModelManager.device model))
  /\ match DemoText3DModel.generate_3d prompt with
     | Ok result =>
         exists result',
           outcome = Ok result'
           /\ BaseText3DModel.vertices result' = BaseText3DModel.vertices result
           /\ BaseText3DModel.faces result' = BaseText3DModel.faces result
           /\ BaseText3DModel.metadata result' !! "model_used" = Some (VStr model_name)
           /\ BaseText3DModel.metadata result' !! "prompt" = Some (VStr prompt)
           /\ BaseText3DModel.metadata result' !! "generation_params" = Some (VBox ∅)
           /\ forall key, key <> "model_used" -> key <> "prompt" ->
                key <> "generation_params" ->
                BaseText3DModel.metadata result' !! key
                = BaseText3DModel.metadata result !! key
     | Raise e => outcome = Raise e
     end.
Proof.
  intros Hmodel. unfold ModelManager.generate_3d. rewrite Hmodel.
  unfold ModelManager.get_model, ModelManager.registry in *. simpl.
  destruct model as [name path loaded device]. simpl.
  assert (Hmetadata : forall result : BaseText3DModel.generated F,
            let metadata' :=
              <["generation_params" := VBox ∅]>
                (<["prompt" := VStr prompt]>
                   (<["model_used" := VStr model_name]>
                      (BaseText3DModel.metadata result))) in
            metadata' !! "model_used" = Some (VStr model_name)
            /\ metadata' !! "prompt" = Some (VStr prompt)
            /\ metadata' !! "generation_params" = Some (VBox ∅)
            /\ forall key, key <> "model_used" -> key <> "prompt" ->
                 key <> "generation_params" ->
                 metadata' !! key = BaseText3DModel.metadata result !! key).
  { intros result. simpl.
    split; [by rewrite lookup_insert_ne, lookup_insert_ne, lookup_insert_eq|].
    split; [by rewrite lookup_insert_ne, lookup_insert_eq|].
    split; [by rewrite lookup_insert_eq|].
    intros key H1 H2 H3. by rewrite !lookup_insert_ne. }
  destruct loaded; simpl.
  - destruct (DemoText3DModel.generate_3d prompt) as [result|e]; [|done].
    split; [done|]. eexists. split; [reflexivity|]. simpl.
    split; [done|]. split; [done|]. apply Hmetadata.
  - destruct (DemoText3DModel.generate_3d prompt) as [result|e]; simpl.
    + split; [by rewrite lookup_insert_eq|].
      eexists. split; [reflexivity|]. simpl.
      split; [done|]. split; [done|]. apply Hmetadata.
    + split; [by rewrite lookup_insert_eq|done].
Qed.

(** X26: the default manager knows the demo model only: any other model
    name, [point-e] and [shap-e] among them, raises the ValueError
    "Model '...' not found" and leaves the registry as it was. *)
Theorem unknown_model_not_found (model_name prompt : string) :
  model_name <> "demo" ->
  ModelManager.generate_3d ModelManager.default_models model_name prompt
  = (Raise (mk_exn ValueError ("Model '" +:+ model_name +:+ "' not found")),
     ModelManager.default_models).
Proof.
  intros Hname. unfold ModelManager.generate_3d, ModelManager.get_model.
  assert (Hnone : ModelManager.default_models !! model_name = None).
  { unfold ModelManager.default_models, ModelManager.register_model,
      ModelManager.registry.
    rewrite lookup_insert_ne by done. apply lookup_empty. }
  by rewrite Hnone.
Qed.

Variable Trimesh : list (vec3 F) -> list face -> result MeshProcessor.trimesh_mesh.

(** X27: the pipeline of [create_ai_generated_model]: for a prompt without
    banned words the default manager's demo model returns a mesh, the
    registry stays as it was, [validate_mesh] reports the mesh valid with no
    error, and [create_mesh_from_arrays] builds the STL triangles, one per
    face, without raising. *)
Theorem generated_mesh_pipeline (prompt : string) :
  Forall (fun word => Str.contains word (BaseText3DModel.clean prompt) = false)
         BaseText3DModel.banned_words ->
  exists result report vs fs vectors,
    ModelManager.generate_3d ModelManager.default_models "demo" prompt
    = (Ok result, ModelManager.default_models)
    /\ MeshProcessor.validate_mesh Trimesh (BaseText3DModel.vertices result)
         (BaseText3DModel.faces result) = Some report
    /\ MeshProcessor.is_valid report = true
    /\ MeshProcessor.errors report = []
    /\ as_rows3 (BaseText3DModel.vertices result) = Some vs
    /\ as_rows3 (BaseText3DModel.faces result) = Some fs
    /\ MeshProcessor.create_mesh_from_arrays vs fs = Ok vectors
    /\ length vectors = len (BaseText3DModel.faces result).
Proof.
  intros Hclean.
  assert (Hfilter : BaseText3DModel.content_filter BaseText3DModel.banned_words
                      (BaseText3DModel.clean prompt) = Ok tt).
  { destruct (content_filter_cases (BaseText3DModel.clean prompt)
                BaseText3DModel.banned_words) as [Hok|(word & Hword & Hfound & _)];
      [done|].
    rewrite Forall_forall in Hclean. rewrite (Hclean word Hword) in Hfound. done. }
  destruct (generate_3d_counts prompt Hfilter)
    as (result & N & M & Hrun & Hcounts & Htable & _).
  destruct (table_positive N M Htable) as [HN HM].
  destruct Hcounts as (Hv & Hdata & Hf & Hfdata & Hindices). simpl in *.
  destruct (validate_mesh_report Trimesh (BaseText3DModel.vertices result)
              (BaseText3DModel.faces result) N M Hv Hf)
    as (report & Hreport & Hvalid & Herrors & _).
  assert (Hverdict : MeshProcessor.is_valid report = true).
  { rewrite Hvalid. by apply (structural_checks_valid _ _ N M Hv Hf). }
  assert (Hall : Forall (face_in_range
                           (length (rows3 (data (BaseText3DModel.vertices result)))))
                        (rows3 (data (BaseText3DModel.faces result)))).
  { rewrite (rows3_length N) by done.
    eapply Forall_impl; [by apply rows3_canonical|]. apply face_canonical_in_range. }
  destruct (create_mesh_rows _ _ Hall) as (rows & Hrows & Hmesh).
  destruct (indexed_rows_lookup _ _ rows Hrows) as [Hlen _].
  eexists {| BaseText3DModel.vertices := BaseText3DModel.vertices result;
            BaseText3DModel.faces := BaseText3DModel.faces result;
            BaseText3DModel.metadata :=
              <["generation_params" := VBox ∅]>
                (<["prompt" := VStr prompt]>
                   (<["model_used" := VStr "demo"]> (BaseText3DModel.metadata result))) |},
    report, (rows3 (data (BaseText3DModel.vertices result))),
    (rows3 (data (BaseText3DModel.faces result))), _.
  simpl. split.
  { unfold ModelManager.generate_3d. by rewrite Hrun. }
  split; [done|]. split; [done|].
  split; [rewrite Herrors; by apply structural_checks_errors; rewrite <- Hvalid|].
  split; [unfold as_rows3; by rewrite Hv|].
  split; [unfold as_rows3; by rewrite Hf|].
  split; [exact Hmesh|].
  rewrite length_map, Hlen. unfold len. rewrite Hf. simpl. by apply rows3_length.
Qed.

End Pipeline.

(** X23, witness *)
Lemma generated_mesh_metadata_witness :
  exists result N M,
    DemoText3DModel.generate_3d (F := R) "a tiny ball" = Ok result
    /\ mesh_counts (BaseText3DModel.vertices result, BaseText3DModel.faces result) N M
    /\ (N, M) ∈ [ (8, 12); (561, 1024); (34, 64); (5, 6) ]%nat
    /\ BaseText3DModel.metadata result !! "vertex_count" = Some (VInt (Z.of_nat N))
    /\ BaseText3DModel.metadata result !! "face_count" = Some (VInt (Z.of_nat M))
    /\ BaseText3DModel.metadata result !! "generation_method" = Some (VStr "demo").
Proof.
  apply (generated_mesh_metadata (F := R) "a tiny ball"). repeat constructor.
Defined.

(** X24, witness *)
Lemma generation_fails_only_on_banned_words_witness :
  exists word,
    word ∈ BaseText3DModel.banned_words
    /\ Str.contains word (BaseText3DModel.clean "An NSFW cube") = true
    /\ mk_exn ValueError "Inappropriate content detected: nsfw"
       = mk_exn ValueError ("Inappropriate content detected: " +:+ word).
Proof.
  exact (generation_fails_only_on_banned_words (F := R) "An NSFW cube"
           (mk_exn ValueError "Inappropriate content detected: nsfw") eq_refl).
Defined.

(** X25, witness: the demo model of the default manager. *)
Lemma manager_generate_3d_witness :
  let '(outcome, models') :=
    ModelManager.generate_3d (F := R) ModelManager.default_models "demo" "a cube" in
  models' !! "demo" = Some (ModelManager.mk_model "demo" None true "cpu")
  /\ match DemoText3DModel.generate_3d (F := R) "a cube" with
     | Ok result =>
         exists result',
           outcome = Ok result'
           /\ BaseText3DModel.vertices result' = BaseText3DModel.vertices result
           /\ BaseText3DModel.faces result' = BaseText3DModel.faces result
           /\ BaseText3DModel.metadata result' !! "model_used" = Some (VStr "demo")
           /\ BaseText3DModel.metadata result' !! "prompt" = Some (VStr "a cube")
           /\ BaseText3DModel.metadata result' !! "generation_params" = Some (VBox ∅)
           /\ forall key, key <> "model_used" -> key <> "prompt" ->
                key <> "generation_params" ->
                BaseText3DModel.metadata result' !! key
                = BaseText3DModel.metadata result !! key
     | Raise e => outcome = Raise e
     end.
Proof.
  exact (manager_generate_3d (F := R) ModelManager.default_models "demo"
           ModelManager.demo_model "a cube" eq_refl).
Defined.

(** X26, witness: the default model type of the API. *)
Lemma unknown_model_not_found_witness :
  ModelManager.generate_3d (F := R) ModelManager.default_models "point-e" "a cube"
  = (Raise (mk_exn ValueError "Model 'point-e' not found"), ModelManager.default_models).
Proof.
  apply (unknown_model_not_found (F := R) "point-e" "a cube"). discriminate.
Defined.

(** X27, witness: without the topology library. *)
Lemma generated_mesh_pipeline_witness :
  exists result report vs fs vectors,
    ModelManager.generate_3d (F := R) ModelManager.default_models "demo" "a tiny ball"
    = (Ok result, ModelManager.default_models)
    /\ MeshProcessor.validate_mesh
         (fun _ _ => Raise (mk_exn OtherError "No module named 'trimesh'"))
         (BaseText3DModel.vertices result) (BaseText3DModel.faces result) = Some report
    /\ MeshProcessor.is_valid report = true
    /\ MeshProcessor.errors report = []
    /\ as_rows3 (BaseText3DModel.vertices result) = Some vs
    /\ as_rows3 (BaseText3DModel.faces result) = Some fs
    /\ MeshProcessor.create_mesh_from_arrays vs fs = Ok vectors
    /\ length vectors = len (BaseText3DModel.faces result).
Proof.
  apply (generated_mesh_pipeline (F := R)
           (fun _ _ => Raise (mk_exn OtherError "No module named 'trimesh'"))
           "a tiny ball").
  repeat constructor.
Defined.

(** ** The registry *)

(** X29: unloading a loaded model does not show in a later generation:
    [generate_3d] loads the model again, returns what it would have
    returned and leaves the registry as it was before the unloading. *)
Theorem unload_then_generate {F : Type} `{Floating F} `{Libm F}
  (models : ModelManager.registry) (model_name : string)
  (model : ModelManager.model_object) (prompt : string) :
  ModelManager.get_model models model_name = Some model ->
  ModelManager.is_loaded model = true ->
  ModelManager.generate_3d (F := F) (ModelManager.unload_model models model_name)
    model_name prompt
  = ModelManager.generate_3d models model_name prompt.
Proof.
  unfold ModelManager.get_model, ModelManager.unload_model, ModelManager.generate_3d,
    ModelManager.get_model, ModelManager.registry in *.
  intros Hmodel Hloaded. rewrite Hmodel, lookup_insert_eq.
  destruct model as [name path loaded device]. simpl in *. subst loaded. simpl.
  rewrite insert_insert_eq, (insert_id models model_name) by done.
  done.
Qed.

(** X29, witness *)
Lemma unload_then_generate_witness :
  ModelManager.generate_3d (F := R)
    (ModelManager.unload_model ModelManager.default_models "demo") "demo" "a cube"
  = ModelManager.generate_3d ModelManager.default_models "demo" "a cube".
Proof.
  exact (unload_then_generate (F := R) ModelManager.default_models "demo"
           ModelManager.demo_model "a cube" eq_refl eq_refl).
Defined.

(** ** From arrays to STL and back *)

Section RoundTrip.
Context {F : Type} `{Floating F}.

(** X30: the path of [save_mesh] for the obj and ply formats: from faces
    in range [create_mesh_from_arrays] builds an STL mesh, and on it
    [_stl_to_trimesh] hands to [trimesh.Trimesh] as many faces as there
    were, the i-th of them indexing the float32 values of the three rows the
    i-th face indexed. *)
Theorem stl_round_trip (vertices : list (vec3 F)) (faces : list face) :
  Forall (face_in_range (length vertices)) faces ->
  exists vectors vertices' faces',
    MeshProcessor.create_mesh_from_arrays vertices faces = Ok vectors
    /\ hands_to_trimesh vectors vertices' faces'
    /\ length faces' = length faces
    /\ forall i f, faces !! i = Some f ->
         exists v0 v1 v2 i0 i1 i2,
           take_rows vertices f = Ok (v0, v1, v2)
           /\ faces' !! i = Some (i0, i1, i2)
           /\ stands_for vertices' i0 (MeshProcessor.f32_row v0)
           /\ stands_for vertices' i1 (MeshProcessor.f32_row v1)
           /\ stands_for vertices' i2 (MeshProcessor.f32_row v2).
Proof.
  intros Hall.
  destruct (create_mesh_rows vertices faces Hall) as (rows & Hrows & Hmesh).
  destruct (indexed_rows_lookup vertices faces rows Hrows) as [Hlen Hlookup].
  revert Hmesh. set (vectors := map _ rows). intros Hmesh.
  pose proof (stl_to_trimesh_call vectors) as Hcall.
  pose proof (builder_after_spec vectors) as Hspec.
  destruct (builder_after vectors) as [b faces']. simpl in Hcall.
  destruct Hspec as (_ & _ & _ & Hfaces & Hcorners).
  exists vectors, (MeshProcessor.tb_vertices b), faces'.
  split; [done|]. split; [done|].
  split; [subst vectors; by rewrite Hfaces, length_map|].
  intros i f Hi. destruct (Hlookup i f Hi) as ([[v0 v1] v2] & Htake & Hrow).
  assert (Hvector : vectors !! i
                    = Some (MeshProcessor.f32_row v0, MeshProcessor.f32_row v1,
                            MeshProcessor.f32_row v2)).
  { subst vectors. by rewrite list_lookup_fmap, Hrow. }
  destruct (Hcorners i _ _ _ Hvector) as (i0 & i1 & i2 & Hface & Hs0 & Hs1 & Hs2).
  by exists v0, v1, v2, i0, i1, i2.
Qed.

End RoundTrip.

(** X30, witness: the cube. *)
Lemma stl_round_trip_witness :
  exists vectors vertices' faces',
    MeshProcessor.create_mesh_from_arrays translated_cube cube_faces = Ok vectors
    /\ hands_to_trimesh vectors vertices' faces'
    /\ length faces' = length cube_faces
    /\ forall i f, cube_faces !! i = Some f ->
         exists v0 v1 v2 i0 i1 i2,
           take_rows translated_cube f = Ok (v0, v1, v2)
           /\ faces' !! i = Some (i0, i1, i2)
           /\ stands_for vertices' i0 (MeshProcessor.f32_row v0)
           /\ stands_for vertices' i1 (MeshProcessor.f32_row v1)
           /\ stands_for vertices' i2 (MeshProcessor.f32_row v2).
Proof.
  apply (stl_round_trip translated_cube cube_faces).
  repeat constructor; simpl; lia.
Defined.
